(** * EcoFinds marketplace: storage layer, REST handlers and impact metrics

    A shallow embedding of [server/storage.ts] (class [DatabaseStorage]),
    [server/routes.ts] ([registerRoutes]), [shared/schema.ts] and the two
    client fragments that compute with cart and order data
    ([pages/home.tsx], [components/ImpactMetrics.tsx]).

    Conventions of the embedding.
    - A table is the list of its rows, in storage order.  Primary keys are
      strings; [gen_random_uuid()] is a counter kept in the store.
    - A [decimal(p,s)] column and the JavaScript number obtained from it by
      [parseFloat] are both rationals ([Q]); [parseFloat] and [toString]
      are the identity and arithmetic is exact.  An [integer] column is an
      unbounded [Z].
    - The [createdAt]/[updatedAt] columns are left out: no handler reads
      them back into a decision.
    - A column the schema leaves nullable is an [option] where a query or
      a page tests it for null ([available], an order's
      [totalCarbonSaved]); elsewhere it holds the value or the default that
      every insert of the handlers gives it.
    - A storage method is a state transformer on the store.  Driver
      failures are not part of the model; the only callee that can throw is
      the payment processor.
    - A handler is the callback registered on the route, entered once the
      session middleware has let the request through, so the session's
      user id is an argument.  Request bodies have the shape the client
      sends ([cartItemIds : string[]], [quantity : number], ...). *)

From Stdlib Require Import List String ZArith QArith Qround Bool Lia.
From Stdlib Require Import DecimalString.
Import ListNotations.

Local Open Scope string_scope.
Local Open Scope Z_scope.
Local Open Scope Q_scope.

Definition Id := string.

(** ** shared/schema.ts *)

Inductive Category :=
| clothing | electronics | home_garden | books | sports
| toys | furniture | jewelry | vehicles | other.

Inductive Condition := excellent | very_good | good | fair | poor.

Inductive OrderStatus := pending | confirmed | shipped | delivered | cancelled.

Module User.
Record t := mk {
    id : Id;
    email : option string;
    firstName : option string;
    lastName : option string;
    profileImageUrl : option string;
    userType : option string;
    totalCarbonSaved : Q;
    stripeCustomerId : option string
  }.

Definition with_totalCarbonSaved (u : t) (c : Q) : t :=
    mk (id u) (email u) (firstName u) (lastName u) (profileImageUrl u)
       (userType u) c (stripeCustomerId u).
End User.

Module Product.
Record t := mk {
    id : Id;
    sellerId : Id;
    title : string;
    description : string;
    price : Q;
    originalPrice : option Q;
    category : Category;
    condition : Condition;
    conditionRating : Z;
    images : list string;
    carbonSaved : Q;
    waterSaved : option Q;
    ecoScore : string;
    sustainabilityCertified : option bool;
    available : option bool;
    featured : option bool;
    views : Z
  }.

Definition with_views (p : t) (v : Z) : t :=
    mk (id p) (sellerId p) (title p) (description p) (price p)
       (originalPrice p) (category p) (condition p) (conditionRating p)
       (images p) (carbonSaved p) (waterSaved p) (ecoScore p)
       (sustainabilityCertified p) (available p) (featured p) v.
End Product.

Module Review.
Record t := mk {
    id : Id;
    productId : Id;
    buyerId : Id;
    rating : Z;
    comment : option string
  }.
End Review.

Module CartItem.
Record t := mk {
    id : Id;
    userId : Id;
    productId : Id;
    quantity : Z
  }.

Definition with_quantity (c : t) (q : Z) : t :=
    mk (id c) (userId c) (productId c) q.
End CartItem.

Module Order.
Record t := mk {
    id : Id;
    buyerId : Id;
    totalAmount : Q;
    status : OrderStatus;
    shippingAddress : string;
    paymentIntentId : option string;
    totalCarbonSaved : option Q
  }.

Definition with_status (o : t) (s : OrderStatus) : t :=
    mk (id o) (buyerId o) (totalAmount o) s (shippingAddress o)
       (paymentIntentId o) (totalCarbonSaved o).
End Order.

Module OrderItem.
Record t := mk {
    id : Id;
    orderId : Id;
    productId : Id;
    sellerId : Id;
    price : Q;
    quantity : Z;
    carbonSaved : option Q
  }.
End OrderItem.

(** [InsertProduct]: [insertProductSchema] omits [id], the timestamps and
    [views]; a column with a default is an optional key. *)
Module InsertProduct.
Record t := mk {
    sellerId : Id;
    title : string;
    description : string;
    price : Q;
    originalPrice : option Q;
    category : Category;
    condition : Condition;
    conditionRating : Z;
    images : option (list string);
    carbonSaved : Q;
    waterSaved : option Q;
    ecoScore : string;
    sustainabilityCertified : option (option bool);
    available : option (option bool);
    featured : option (option bool)
  }.
End InsertProduct.

(** [Partial<InsertProduct>]: every key optional, [None] leaves the column
    as it is. *)
Module ProductUpdates.
Record t := mk {
    sellerId : option Id;
    title : option string;
    description : option string;
    price : option Q;
    originalPrice : option (option Q);
    category : option Category;
    condition : option Condition;
    conditionRating : option Z;
    images : option (list string);
    carbonSaved : option Q;
    waterSaved : option (option Q);
    ecoScore : option string;
    sustainabilityCertified : option (option bool);
    available : option (option bool);
    featured : option (option bool)
  }.

Definition none : t :=
    mk None None None None None None None None None None None None None
       None None.
End ProductUpdates.

Module InsertReview.
Record t := mk {
    productId : Id;
    buyerId : Id;
    rating : Z;
    comment : option string
  }.
End InsertReview.

Module InsertCartItem.
Record t := mk {
    userId : Id;
    productId : Id;
    quantity : Z
  }.
End InsertCartItem.

Module InsertOrder.
Record t := mk {
    buyerId : Id;
    totalAmount : Q;
    status : OrderStatus;
    shippingAddress : string;
    paymentIntentId : option string;
    totalCarbonSaved : option Q
  }.
End InsertOrder.

Module InsertOrderItem.
Record t := mk {
    orderId : Id;
    productId : Id;
    sellerId : Id;
    price : Q;
    quantity : Z;
    carbonSaved : option Q
  }.
End InsertOrderItem.

(** Extended types with relations. *)
Module ProductWithSeller.
Record t := mk {
    row : Product.t;
    seller : User.t;
    reviews : list Review.t
  }.
End ProductWithSeller.

Module CartItemWithProduct.
Record t := mk {
    row : CartItem.t;
    product : ProductWithSeller.t
  }.

Definition id (i : t) : Id := CartItem.id (row i).
Definition quantity (i : t) : Z := CartItem.quantity (row i).
End CartItemWithProduct.

(** ** The store *)

Record Db := mkDb {
  users : list User.t;
  products : list Product.t;
  reviews : list Review.t;
  cartItems : list CartItem.t;
  orders : list Order.t;
  orderItems : list OrderItem.t;
  uuidCounter : nat
}.

Definition gen_random_uuid (n : nat) : Id :=
  "uuid-" ++ NilEmpty.string_of_uint (Nat.to_uint n).

(** A storage method: reads the store, returns a value and the store it
    leaves behind. *)
Definition Storage (A : Type) : Type := Db -> A * Db.

Definition ret {A} (a : A) : Storage A := fun db => (a, db).

Definition bind {A B} (m : Storage A) (k : A -> Storage B) : Storage B :=
  fun db => let '(a, db') := m db in k a db'.

Definition query {A} (f : Db -> A) : Storage A := fun db => (f db, db).

Definition execute (f : Db -> Db) : Storage unit := fun db => (tt, f db).

Declare Scope storage_scope.
Delimit Scope storage_scope with storage.
Notation "x <- m ;; k" := (bind m (fun x => k))
  (at level 61, m at next level, right associativity) : storage_scope.
Notation "m ;;; k" := (bind m (fun _ => k))
  (at level 61, right associativity) : storage_scope.

(** [for (const x of xs) await f(x)] *)
Fixpoint forOf {A} (xs : list A) (f : A -> Storage unit) : Storage unit :=
  match xs with
  | [] => ret tt
  | x :: xs' => bind (f x) (fun _ => forOf xs' f)
  end.

(** ** Query helpers (drizzle-orm, JavaScript built-ins) *)

(** [a.innerJoin(b, on)] and [a.leftJoin(b, on)], nested-loop order. *)
Definition innerJoin {A B} (l : list A) (r : list B) (on : A -> B -> bool)
  : list (A * B) :=
  flat_map (fun a => map (pair a) (filter (on a) r)) l.

Definition leftJoin {A B} (l : list A) (r : list B) (on : A -> B -> bool)
  : list (A * option B) :=
  flat_map (fun a =>
              match filter (on a) r with
              | [] => [(a, None)]
              | m => map (fun b => (a, Some b)) m
              end) l.

(** [eq(col, true)] on a nullable boolean column: NULL is not true. *)
Definition sqlIsTrue (b : option bool) : bool :=
  match b with Some true => true | _ => false end.

(** [xs.includes(x)] on an array of strings. *)
Definition includes (xs : list Id) (x : Id) : bool :=
  existsb (String.eqb x) xs.

(** A JavaScript [Map] with string keys: insertion-ordered, one entry per
    key. *)
Definition JsMap (V : Type) : Type := list (Id * V).

Definition mapHas {V} (m : JsMap V) (k : Id) : bool :=
  existsb (fun e => String.eqb (fst e) k) m.

Fixpoint mapSet {V} (m : JsMap V) (k : Id) (v : V) : JsMap V :=
  match m with
  | [] => [(k, v)]
  | (k', v') :: m' =>
      if String.eqb k' k then (k', v) :: m' else (k', v') :: mapSet m' k v
  end.

(** [f(m.get(k))] for an [f] that mutates the stored object in place. *)
Definition mapAdjust {V} (m : JsMap V) (k : Id) (f : V -> V) : JsMap V :=
  map (fun e => if String.eqb (fst e) k then (fst e, f (snd e)) else e) m.

Definition mapValues {V} (m : JsMap V) : list V := map snd m.

(** [parseFloat] of a decimal column. *)
Definition parseFloat (d : Q) : Q := d.

(** ** server/storage.ts: class DatabaseStorage *)

Definition set_users (db : Db) (v : list User.t) : Db :=
  mkDb v (products db) (reviews db) (cartItems db) (orders db)
       (orderItems db) (uuidCounter db).

Definition set_products (db : Db) (v : list Product.t) : Db :=
  mkDb (users db) v (reviews db) (cartItems db) (orders db)
       (orderItems db) (uuidCounter db).

Definition set_reviews (db : Db) (v : list Review.t) : Db :=
  mkDb (users db) (products db) v (cartItems db) (orders db)
       (orderItems db) (uuidCounter db).

Definition set_cartItems (db : Db) (v : list CartItem.t) : Db :=
  mkDb (users db) (products db) (reviews db) v (orders db)
       (orderItems db) (uuidCounter db).

Definition set_orders (db : Db) (v : list Order.t) : Db :=
  mkDb (users db) (products db) (reviews db) (cartItems db) v
       (orderItems db) (uuidCounter db).

Definition set_orderItems (db : Db) (v : list OrderItem.t) : Db :=
  mkDb (users db) (products db) (reviews db) (cartItems db) (orders db)
       v (uuidCounter db).

(** Draws [n] consecutive fresh primary keys. *)
Definition freshIds (n : nat) : Storage (list Id) :=
  fun db =>
    (map gen_random_uuid (seq (uuidCounter db) n),
     mkDb (users db) (products db) (reviews db) (cartItems db) (orders db)
          (orderItems db) (uuidCounter db + n)%nat).

Definition freshId : Storage Id :=
  fun db =>
    (gen_random_uuid (uuidCounter db),
     mkDb (users db) (products db) (reviews db) (cartItems db) (orders db)
          (orderItems db) (S (uuidCounter db))).

Local Open Scope storage_scope.

(** *** User operations *)

Definition getUser (id : Id) : Storage (option User.t) :=
  query (fun db => find (fun u => String.eqb (User.id u) id) (users db)).

Definition updateUserCarbonSaved (id : Id) (carbonSaved : Q) : Storage unit :=
  execute (fun db =>
    set_users db
      (map (fun u =>
              if String.eqb (User.id u) id
              then User.with_totalCarbonSaved u
                     (User.totalCarbonSaved u + carbonSaved)
              else u)
           (users db))).

(** *** Product operations *)

Definition productRows (db : Db)
  : list (Product.t * User.t * option Review.t) :=
  leftJoin
    (innerJoin (products db) (users db)
       (fun p u => String.eqb (Product.sellerId p) (User.id u)))
    (reviews db)
    (fun pu r => String.eqb (Product.id (fst pu)) (Review.productId r)).

Definition keepReviews {A} (rows : list (A * option Review.t))
  : list Review.t :=
  flat_map (fun r => match snd r with Some rv => [rv] | None => [] end) rows.

Definition getProduct (id : Id) : Storage (option ProductWithSeller.t) :=
  query (fun db =>
    let result :=
      filter (fun r => String.eqb (Product.id (fst (fst r))) id)
             (productRows db) in
    match result with
    | [] => None
    | r0 :: _ =>
        let productData := fst (fst r0) in
        let seller := snd (fst r0) in
        let reviewsList := keepReviews result in
        Some (ProductWithSeller.mk productData seller reviewsList)
    end).

Definition orDefault {A} (o : option A) (d : A) : A :=
  match o with Some a => a | None => d end.

Definition createProduct (product : InsertProduct.t) : Storage Product.t :=
  id <- freshId ;;
  let newProduct :=
    Product.mk id
      (InsertProduct.sellerId product) (InsertProduct.title product)
      (InsertProduct.description product) (InsertProduct.price product)
      (InsertProduct.originalPrice product)
      (InsertProduct.category product) (InsertProduct.condition product)
      (InsertProduct.conditionRating product)
      (orDefault (InsertProduct.images product) [])
      (InsertProduct.carbonSaved product)
      (InsertProduct.waterSaved product) (InsertProduct.ecoScore product)
      (orDefault (InsertProduct.sustainabilityCertified product) (Some false))
      (orDefault (InsertProduct.available product) (Some true))
      (orDefault (InsertProduct.featured product) (Some false))
      0%Z in
  execute (fun db => set_products db (products db ++ [newProduct])) ;;;
  ret newProduct.

Definition applyUpdates (p : Product.t) (u : ProductUpdates.t) : Product.t :=
  Product.mk (Product.id p)
    (orDefault (ProductUpdates.sellerId u) (Product.sellerId p))
    (orDefault (ProductUpdates.title u) (Product.title p))
    (orDefault (ProductUpdates.description u) (Product.description p))
    (orDefault (ProductUpdates.price u) (Product.price p))
    (orDefault (ProductUpdates.originalPrice u) (Product.originalPrice p))
    (orDefault (ProductUpdates.category u) (Product.category p))
    (orDefault (ProductUpdates.condition u) (Product.condition p))
    (orDefault (ProductUpdates.conditionRating u) (Product.conditionRating p))
    (orDefault (ProductUpdates.images u) (Product.images p))
    (orDefault (ProductUpdates.carbonSaved u) (Product.carbonSaved p))
    (orDefault (ProductUpdates.waterSaved u) (Product.waterSaved p))
    (orDefault (ProductUpdates.ecoScore u) (Product.ecoScore p))
    (orDefault (ProductUpdates.sustainabilityCertified u)
               (Product.sustainabilityCertified p))
    (orDefault (ProductUpdates.available u) (Product.available p))
    (orDefault (ProductUpdates.featured u) (Product.featured p))
    (Product.views p).

Definition updateProduct (id : Id) (updates : ProductUpdates.t)
  : Storage (option Product.t) :=
  execute (fun db =>
    set_products db
      (map (fun p => if String.eqb (Product.id p) id
                     then applyUpdates p updates else p)
           (products db))) ;;;
  query (fun db => find (fun p => String.eqb (Product.id p) id) (products db)).

Definition deleteProduct (id : Id) : Storage unit :=
  execute (fun db =>
    set_products db
      (filter (fun p => negb (String.eqb (Product.id p) id)) (products db))).

Definition incrementProductViews (id : Id) : Storage unit :=
  execute (fun db =>
    set_products db
      (map (fun p => if String.eqb (Product.id p) id
                     then Product.with_views p (Product.views p + 1)%Z
                     else p)
           (products db))).

(** *** Review operations *)

Definition createReview (review : InsertReview.t) : Storage Review.t :=
  id <- freshId ;;
  let newReview :=
    Review.mk id (InsertReview.productId review) (InsertReview.buyerId review)
      (InsertReview.rating review) (InsertReview.comment review) in
  execute (fun db => set_reviews db (reviews db ++ [newReview])) ;;;
  ret newReview.

(** [upsertUser]: [UpsertUser] is the insert type of [users]; an absent
    key takes the column default on insert and is left alone on conflict. *)
Module UpsertUser.
Record t := mk {
    id : option Id;
    email : option string;
    firstName : option string;
    lastName : option string;
    profileImageUrl : option string;
    userType : option string;
    totalCarbonSaved : option Q;
    stripeCustomerId : option string
  }.
End UpsertUser.

Definition orElse {A} (o d : option A) : option A :=
  match o with Some a => Some a | None => d end.

Definition upsertUser (userData : UpsertUser.t) : Storage User.t :=
  id <- match UpsertUser.id userData with
        | Some id => ret id
        | None => freshId
        end ;;
  existing <- getUser id ;;
  let user :=
    match existing with
    | None =>
        User.mk id (UpsertUser.email userData) (UpsertUser.firstName userData)
          (UpsertUser.lastName userData) (UpsertUser.profileImageUrl userData)
          (orElse (UpsertUser.userType userData) (Some "buyer"))
          (orDefault (UpsertUser.totalCarbonSaved userData) 0)
          (UpsertUser.stripeCustomerId userData)
    | Some u =>
        User.mk id
          (orElse (UpsertUser.email userData) (User.email u))
          (orElse (UpsertUser.firstName userData) (User.firstName u))
          (orElse (UpsertUser.lastName userData) (User.lastName u))
          (orElse (UpsertUser.profileImageUrl userData)
                  (User.profileImageUrl u))
          (orElse (UpsertUser.userType userData) (User.userType u))
          (orDefault (UpsertUser.totalCarbonSaved userData)
                     (User.totalCarbonSaved u))
          (orElse (UpsertUser.stripeCustomerId userData)
                  (User.stripeCustomerId u))
    end in
  execute (fun db =>
    set_users db
      match existing with
      | None => users db ++ [user]
      | Some _ =>
          map (fun u => if String.eqb (User.id u) id then user else u)
              (users db)
      end) ;;;
  ret user.

(** *** Cart operations *)

Definition CartRow : Type :=
  CartItem.t * Product.t * User.t * option Review.t.

Definition cartRows (db : Db) (userId : Id) : list CartRow :=
  filter
    (fun row =>
       let '(c, p, _, _) := row in
       String.eqb (CartItem.userId c) userId
       && sqlIsTrue (Product.available p))
    (leftJoin
       (innerJoin
          (innerJoin (cartItems db) (products db)
             (fun c p => String.eqb (CartItem.productId c) (Product.id p)))
          (users db)
          (fun cp u => String.eqb (Product.sellerId (snd cp)) (User.id u)))
       (reviews db)
       (fun cpu r =>
          String.eqb (Product.id (snd (fst cpu))) (Review.productId r))).

Definition pushReview (rv : Review.t) (i : CartItemWithProduct.t)
  : CartItemWithProduct.t :=
  let p := CartItemWithProduct.product i in
  CartItemWithProduct.mk (CartItemWithProduct.row i)
    (ProductWithSeller.mk (ProductWithSeller.row p)
       (ProductWithSeller.seller p)
       (ProductWithSeller.reviews p ++ [rv])).

(** The body of [result.forEach((row) => ...)] in [getCartItems]. *)
Definition groupCartRow (cartMap : JsMap CartItemWithProduct.t)
  (row : CartRow) : JsMap CartItemWithProduct.t :=
  let '(c, p, u, r) := row in
  let cartItemId := CartItem.id c in
  let cartMap1 :=
    if mapHas cartMap cartItemId then cartMap
    else mapSet cartMap cartItemId
           (CartItemWithProduct.mk c (ProductWithSeller.mk p u [])) in
  match r with
  | Some rv => mapAdjust cartMap1 cartItemId (pushReview rv)
  | None => cartMap1
  end.

Definition getCartItems (userId : Id)
  : Storage (list CartItemWithProduct.t) :=
  query (fun db =>
    let result := cartRows db userId in
    let cartMap := fold_left groupCartRow result [] in
    mapValues cartMap).

Definition addToCart (item : InsertCartItem.t) : Storage CartItem.t :=
  id <- freshId ;;
  let cartItem :=
    CartItem.mk id (InsertCartItem.userId item)
      (InsertCartItem.productId item) (InsertCartItem.quantity item) in
  execute (fun db => set_cartItems db (cartItems db ++ [cartItem])) ;;;
  ret cartItem.

Definition updateCartItem (id : Id) (quantity : Z)
  : Storage (option CartItem.t) :=
  execute (fun db =>
    set_cartItems db
      (map (fun c => if String.eqb (CartItem.id c) id
                     then CartItem.with_quantity c quantity else c)
           (cartItems db))) ;;;
  query (fun db =>
    find (fun c => String.eqb (CartItem.id c) id) (cartItems db)).

Definition removeFromCart (id : Id) : Storage unit :=
  execute (fun db =>
    set_cartItems db
      (filter (fun c => negb (String.eqb (CartItem.id c) id))
              (cartItems db))).

Definition clearCart (userId : Id) : Storage unit :=
  execute (fun db =>
    set_cartItems db
      (filter (fun c => negb (String.eqb (CartItem.userId c) userId))
              (cartItems db))).

(** *** Order operations *)

Module OrderWithItems.
Record item := mkItem {
    line : OrderItem.t;
    product : Product.t;
    seller : User.t
  }.

Record t := mk {
    row : Order.t;
    items : list item
  }.
End OrderWithItems.

Definition OrderRow : Type :=
  Order.t * option OrderItem.t * option Product.t * option User.t.

Definition orderRows (db : Db) : list OrderRow :=
  leftJoin
    (leftJoin
       (leftJoin (orders db) (orderItems db)
          (fun o i => String.eqb (Order.id o) (OrderItem.orderId i)))
       (products db)
       (fun oi p =>
          match snd oi with
          | Some i => String.eqb (OrderItem.productId i) (Product.id p)
          | None => false
          end))
    (users db)
    (fun oip u =>
       match snd (fst oip) with
       | Some i => String.eqb (OrderItem.sellerId i) (User.id u)
       | None => false
       end).

Definition keepItems (rows : list OrderRow) : list OrderWithItems.item :=
  flat_map
    (fun r =>
       match r with
       | (_, Some i, Some p, Some u) => [OrderWithItems.mkItem i p u]
       | _ => []
       end) rows.

Definition getOrder (id : Id) : Storage (option OrderWithItems.t) :=
  query (fun db =>
    let result :=
      filter (fun r => String.eqb (Order.id (fst (fst (fst r)))) id)
             (orderRows db) in
    match result with
    | [] => None
    | r0 :: _ =>
        let orderData := fst (fst (fst r0)) in
        Some (OrderWithItems.mk orderData (keepItems result))
    end).

Definition createOrder (order : InsertOrder.t) : Storage Order.t :=
  id <- freshId ;;
  let newOrder :=
    Order.mk id (InsertOrder.buyerId order) (InsertOrder.totalAmount order)
      (InsertOrder.status order) (InsertOrder.shippingAddress order)
      (InsertOrder.paymentIntentId order)
      (InsertOrder.totalCarbonSaved order) in
  execute (fun db => set_orders db (orders db ++ [newOrder])) ;;;
  ret newOrder.

Definition insertOrderItem (id : Id) (i : InsertOrderItem.t) : OrderItem.t :=
  OrderItem.mk id (InsertOrderItem.orderId i) (InsertOrderItem.productId i)
    (InsertOrderItem.sellerId i) (InsertOrderItem.price i)
    (InsertOrderItem.quantity i) (InsertOrderItem.carbonSaved i).

Definition createOrderItems (items : list InsertOrderItem.t)
  : Storage (list OrderItem.t) :=
  ids <- freshIds (List.length items) ;;
  let newItems :=
    map (fun e => insertOrderItem (fst e) (snd e)) (combine ids items) in
  execute (fun db => set_orderItems db (orderItems db ++ newItems)) ;;;
  ret newItems.

Definition updateOrderStatus (id : Id) (status : OrderStatus)
  : Storage (option Order.t) :=
  execute (fun db =>
    set_orders db
      (map (fun o => if String.eqb (Order.id o) id
                     then Order.with_status o status else o)
           (orders db))) ;;;
  query (fun db => find (fun o => String.eqb (Order.id o) id) (orders db)).

(** ** server/routes.ts: registerRoutes *)

Inductive Json :=
| JUndefined
| JMessage (message : string)
| JUser (user : option User.t)
| JProduct (product : ProductWithSeller.t)
| JNewProduct (product : Product.t)
| JNewReview (review : Review.t)
| JCart (items : list CartItemWithProduct.t)
| JCartItem (item : option CartItem.t)
| JOrder (order : OrderWithItems.t)
| JClientSecret (clientSecret : string)
| JOrderId (orderId : Id)
| JListing.

Record Response := mkResponse { status : nat; body : Json }.

(** The payment processor.  [stripe] is [null] when no secret key is
    configured; [paymentIntents.create] either resolves to an intent with a
    [client_secret] or rejects. *)
Module Stripe.
Record PaymentIntentParams := mkParams {
    amount : Z;
    currency : string;
    metadata_userId : Id;
    metadata_cartItemIds : list Id
  }.

Inductive Outcome :=
| Resolved (client_secret : string)
| Rejected (message : string).

Definition Client : Type := PaymentIntentParams -> Outcome.
End Stripe.

(** [Math.round]: nearest integer, halves towards plus infinity. *)
Definition Math_round (x : Q) : Z := Qfloor (x + (1 # 2)).

(** [!amount || amount <= 0] for a body whose [amount] is a number or is
    absent. *)
Definition invalidAmount (amount : option Q) : bool :=
  match amount with
  | None => true
  | Some a => Qeq_bool a 0 || Qle_bool a 0
  end.

(** [app.get('/api/auth/user')] *)
Definition getAuthUserRoute (userId : Id) : Storage Response :=
  user <- getUser userId ;;
  ret (mkResponse 200 (JUser user)).

(** [app.get('/api/products/:id')] *)
Definition getProductRoute (id : Id) : Storage Response :=
  product <- getProduct id ;;
  match product with
  | None => ret (mkResponse 404 (JMessage "Product not found"))
  | Some p =>
      incrementProductViews id ;;;
      ret (mkResponse 200 (JProduct p))
  end.

Definition withSellerId (b : InsertProduct.t) (userId : Id)
  : InsertProduct.t :=
  InsertProduct.mk userId
    (InsertProduct.title b) (InsertProduct.description b)
    (InsertProduct.price b) (InsertProduct.originalPrice b)
    (InsertProduct.category b) (InsertProduct.condition b)
    (InsertProduct.conditionRating b) (InsertProduct.images b)
    (InsertProduct.carbonSaved b) (InsertProduct.waterSaved b)
    (InsertProduct.ecoScore b) (InsertProduct.sustainabilityCertified b)
    (InsertProduct.available b) (InsertProduct.featured b).

(** [app.post('/api/products')]; [parsed] is what
    [insertProductSchema.parse] makes of the body, [None] when it throws a
    [ZodError]. *)
Definition postProductRoute (userId : Id) (parsed : option InsertProduct.t)
  : Storage Response :=
  match parsed with
  | None => ret (mkResponse 400 (JMessage "Invalid product data"))
  | Some b =>
      product <- createProduct (withSellerId b userId) ;;
      ret (mkResponse 201 (JNewProduct product))
  end.

(** [app.post('/api/products/:id/reviews')] *)
Definition postReviewRoute (userId id : Id) (parsed : option InsertReview.t)
  : Storage Response :=
  match parsed with
  | None => ret (mkResponse 400 (JMessage "Invalid review data"))
  | Some b =>
      review <- createReview
                  (InsertReview.mk id userId (InsertReview.rating b)
                     (InsertReview.comment b)) ;;
      ret (mkResponse 201 (JNewReview review))
  end.

(** [app.get('/api/cart')] *)
Definition getCartRoute (userId : Id) : Storage Response :=
  cartItems <- getCartItems userId ;;
  ret (mkResponse 200 (JCart cartItems)).

(** [app.post('/api/cart')]; [quantity = 1] when the body has none. *)
Definition postCartRoute (userId productId : Id) (quantity : option Z)
  : Storage Response :=
  cartItem <- addToCart
                (InsertCartItem.mk userId productId (orDefault quantity 1%Z)) ;;
  ret (mkResponse 201 (JCartItem (Some cartItem))).

(** [app.put('/api/cart/:id')] *)
Definition putCartRoute (id : Id) (quantity : Z) : Storage Response :=
  cartItem <- updateCartItem id quantity ;;
  ret (mkResponse 200 (JCartItem cartItem)).

(** [app.delete('/api/cart/:id')] *)
Definition deleteCartRoute (id : Id) : Storage Response :=
  removeFromCart id ;;;
  ret (mkResponse 204 JUndefined).

(** [app.get('/api/orders/:id')] *)
Definition getOrderRoute (id : Id) : Storage Response :=
  order <- getOrder id ;;
  match order with
  | None => ret (mkResponse 404 (JMessage "Order not found"))
  | Some o => ret (mkResponse 200 (JOrder o))
  end.

(** The listings [GET /api/products], [/api/my-products],
    [/api/products/:id/reviews] and [/api/orders] run one [select] ordered
    by [createdAt]; they read and never write. *)
Definition listingRoute : Storage Response :=
  ret (mkResponse 200 JListing).

(** [app.post("/api/create-payment-intent")]: the response together with
    the calls made to the processor. *)
Definition createPaymentIntentRoute (stripe : option Stripe.Client)
  (userId : Id) (amount : option Q) (cartItemIds : list Id)
  : Response * list Stripe.PaymentIntentParams :=
  match stripe with
  | None =>
      (mkResponse 503
         (JMessage
            "Payment processing is not configured. Please contact support."),
       [])
  | Some client =>
      if invalidAmount amount then
        (mkResponse 400 (JMessage "Invalid amount"), [])
      else
        let params :=
          Stripe.mkParams (Math_round (orDefault amount 0 * 100)) "usd"
            userId cartItemIds in
        match client params with
        | Stripe.Resolved secret =>
            (mkResponse 200 (JClientSecret secret), [params])
        | Stripe.Rejected message =>
            (mkResponse 500
               (JMessage ("Error creating payment intent: " ++ message)),
             [params])
        end
  end.

(** One element of [orderItemsData]. *)
Module OrderLine.
Record t := mk {
    productId : Id;
    sellerId : Id;
    price : Q;
    quantity : Z;
    carbonSaved : Q
  }.
End OrderLine.

Definition withOrderId (item : OrderLine.t) (orderId : Id)
  : InsertOrderItem.t :=
  InsertOrderItem.mk orderId (OrderLine.productId item)
    (OrderLine.sellerId item) (OrderLine.price item)
    (OrderLine.quantity item) (Some (OrderLine.carbonSaved item)).

(** The callback of [validCartItems.map(item => ...)]: it adds to the two
    running totals and yields the line. *)
Definition orderLineStep (acc : Q * Q * list OrderLine.t)
  (item : CartItemWithProduct.t) : Q * Q * list OrderLine.t :=
  let '(totalAmount, totalCarbonSaved, lines) := acc in
  let product := ProductWithSeller.row (CartItemWithProduct.product item) in
  let quantity := inject_Z (CartItemWithProduct.quantity item) in
  let itemTotal := parseFloat (Product.price product) * quantity in
  (totalAmount + itemTotal,
   totalCarbonSaved + parseFloat (Product.carbonSaved product) * quantity,
   (lines ++ [OrderLine.mk (Product.id product) (Product.sellerId product)
                (Product.price product) (CartItemWithProduct.quantity item)
                (Product.carbonSaved product)])%list).

Definition selectCartItems (cartItemIds : list Id)
  (cartItems : list CartItemWithProduct.t) : list CartItemWithProduct.t :=
  filter (fun item => includes cartItemIds (CartItemWithProduct.id item))
         cartItems.

(** [app.post('/api/create-order')] *)
Definition createOrderRoute (userId : Id) (cartItemIds : list Id)
  (shippingAddress : string) (paymentIntentId : option string)
  : Storage Response :=
  cartItems <- getCartItems userId ;;
  let validCartItems := selectCartItems cartItemIds cartItems in
  if Nat.eqb (List.length validCartItems) 0 then
    ret (mkResponse 400 (JMessage "No valid cart items found"))
  else
    let '(totalAmount, totalCarbonSaved, orderItemsData) :=
      fold_left orderLineStep validCartItems (0, 0, []) in
    order <- createOrder
               (InsertOrder.mk userId totalAmount confirmed shippingAddress
                  paymentIntentId (Some totalCarbonSaved)) ;;
    orderItems <- createOrderItems
                    (map (fun item => withOrderId item (Order.id order))
                         orderItemsData) ;;
    updateUserCarbonSaved userId totalCarbonSaved ;;;
    forOf cartItemIds removeFromCart ;;;
    ret (mkResponse 201 (JOrderId (Order.id order))).

(** The REST surface: one constructor per registered route, carrying the
    session's user id where the callback reads [req.user.claims.sub]. *)
Inductive Request :=
| GetAuthUser (userId : Id)
| GetProducts
| GetProduct (id : Id)
| PostProduct (userId : Id) (parsed : option InsertProduct.t)
| GetMyProducts (userId : Id)
| GetReviews (id : Id)
| PostReview (userId id : Id) (parsed : option InsertReview.t)
| GetCart (userId : Id)
| PostCart (userId productId : Id) (quantity : option Z)
| PutCart (id : Id) (quantity : Z)
| DeleteCart (id : Id)
| GetOrders (userId : Id)
| GetOrder (id : Id)
| CreatePaymentIntent (userId : Id) (amount : option Q)
    (cartItemIds : list Id)
| CreateOrder (userId : Id) (cartItemIds : list Id)
    (shippingAddress : string) (paymentIntentId : option string).

(** What a request can change: the store, and the calls received by the
    payment processor. *)
Record World := mkWorld {
  db : Db;
  stripeCalls : list Stripe.PaymentIntentParams
}.

Definition onStore (w : World) (m : Storage Response) : Response * World :=
  let '(res, db') := m (db w) in (res, mkWorld db' (stripeCalls w)).

Definition handle (stripe : option Stripe.Client) (w : World) (r : Request)
  : Response * World :=
  match r with
  | GetAuthUser userId => onStore w (getAuthUserRoute userId)
  | GetProducts => onStore w listingRoute
  | GetProduct id => onStore w (getProductRoute id)
  | PostProduct userId parsed => onStore w (postProductRoute userId parsed)
  | GetMyProducts _ => onStore w listingRoute
  | GetReviews _ => onStore w listingRoute
  | PostReview userId id parsed => onStore w (postReviewRoute userId id parsed)
  | GetCart userId => onStore w (getCartRoute userId)
  | PostCart userId productId quantity =>
      onStore w (postCartRoute userId productId quantity)
  | PutCart id quantity => onStore w (putCartRoute id quantity)
  | DeleteCart id => onStore w (deleteCartRoute id)
  | GetOrders _ => onStore w listingRoute
  | GetOrder id => onStore w (getOrderRoute id)
  | CreatePaymentIntent userId amount cartItemIds =>
      let '(res, calls) :=
        createPaymentIntentRoute stripe userId amount cartItemIds in
      (res, mkWorld (db w) (stripeCalls w ++ calls))
  | CreateOrder userId cartItemIds shippingAddress paymentIntentId =>
      onStore w
        (createOrderRoute userId cartItemIds shippingAddress paymentIntentId)
  end.

(** ** client/src/pages/home.tsx: the cart's quantity controls *)

(** The argument of [updateQuantityMutation.mutate], sent as
    [PUT /api/cart/:id] with body [{ quantity }]. *)
Record QuantityMutation := mkMutation {
  mutation_id : Id;
  mutation_quantity : Z
}.

(** [updateQuantity(id, currentQuantity, change)], the plus and minus
    buttons. *)
Definition updateQuantity (id : Id) (currentQuantity change : Z)
  : option QuantityMutation :=
  let newQuantity := Z.max 1 (currentQuantity + change) in
  if negb (Z.eqb newQuantity currentQuantity)
  then Some (mkMutation id newQuantity)
  else None.

(** [parseInt(e.target.value) || 1]; [parsed] is [None] when [parseInt]
    yields [NaN]. *)
Definition parsedOr1 (parsed : option Z) : Z :=
  match parsed with
  | Some n => if Z.eqb n 0 then 1%Z else n
  | None => 1%Z
  end.

(** The [onChange] callback of the quantity input. *)
Definition onQuantityChange (id : Id) (parsed : option Z) : QuantityMutation :=
  let quantity := Z.max 1 (parsedOr1 parsed) in
  mkMutation id quantity.

Definition mutationFn (m : QuantityMutation) : Request :=
  PutCart (mutation_id m) (mutation_quantity m).

(** ** client/src/components/ImpactMetrics.tsx *)

Module ImpactMetrics.

(** [x || 0] on a number. *)
Definition orZero (x : Q) : Q := if Qeq_bool x 0 then 0 else x.

(** [orders?.reduce(...) || 0]; [orders] is [None] while the query has no
    data. *)
Definition totalCarbonSaved (orders : option (list OrderWithItems.t)) : Q :=
  match orders with
  | None => 0
  | Some os =>
      orZero
        (fold_left
           (fun sum order =>
              sum + parseFloat
                      (orDefault
                         (Order.totalCarbonSaved (OrderWithItems.row order))
                         0))
           os 0)
  end.

Definition totalOrders (orders : option (list OrderWithItems.t)) : nat :=
  match orders with
  | None => 0%nat
  | Some os => List.length os
  end.

Definition totalSpent (orders : option (list OrderWithItems.t)) : Q :=
  match orders with
  | None => 0
  | Some os =>
      orZero
        (fold_left
           (fun sum order =>
              sum + parseFloat (Order.totalAmount (OrderWithItems.row order)))
           os 0)
  end.

Definition treesEquivalent (orders : option (list OrderWithItems.t)) : Q :=
  totalCarbonSaved orders / 22.

Definition waterSaved (orders : option (list OrderWithItems.t)) : Q :=
  totalCarbonSaved orders * 50.

Definition energySaved (orders : option (list OrderWithItems.t)) : Q :=
  totalCarbonSaved orders * (23 # 10).

End ImpactMetrics.

(** * Vocabulary of the statements *)

(** ** Sums, as the specification words them *)

Definition sumQ (l : list Q) : Q := fold_right Qplus 0 l.

Definition productOf (item : CartItemWithProduct.t) : Product.t :=
  ProductWithSeller.row (CartItemWithProduct.product item).

(** price times quantity of one selected cart item *)
Definition lineAmount (item : CartItemWithProduct.t) : Q :=
  Product.price (productOf item) * inject_Z (CartItemWithProduct.quantity item).

(** carbonSaved times quantity of one selected cart item *)
Definition lineCarbon (item : CartItemWithProduct.t) : Q :=
  Product.carbonSaved (productOf item)
  * inject_Z (CartItemWithProduct.quantity item).

(** the price, quantity and carbonSaved an order line takes from a cart
    item *)
Definition snapshot (item : CartItemWithProduct.t) : OrderLine.t :=
  OrderLine.mk (Product.id (productOf item)) (Product.sellerId (productOf item))
    (Product.price (productOf item)) (CartItemWithProduct.quantity item)
    (Product.carbonSaved (productOf item)).

(** An order item is the snapshot of a cart item, filed under an order. *)
Definition snapshotOf (orderId : Id) (item : CartItemWithProduct.t)
  (line : OrderItem.t) : Prop :=
  OrderItem.orderId line = orderId
  /\ OrderItem.productId line = Product.id (productOf item)
  /\ OrderItem.sellerId line = Product.sellerId (productOf item)
  /\ OrderItem.price line = Product.price (productOf item)
  /\ OrderItem.quantity line = CartItemWithProduct.quantity item
  /\ OrderItem.carbonSaved line = Some (Product.carbonSaved (productOf item)).

(** ** Order placement *)

(** [validCartItems] of create-order, as a function of the store. *)
Definition validCartItems (db : Db) (userId : Id) (cartItemIds : list Id)
  : list CartItemWithProduct.t :=
  selectCartItems cartItemIds (fst (getCartItems userId db)).

(** The row update of [updateUserCarbonSaved]. *)
Definition addCarbon (userId : Id) (c : Q) (u : User.t) : User.t :=
  if String.eqb (User.id u) userId
  then User.with_totalCarbonSaved u (User.totalCarbonSaved u + c)
  else u.

(** A row of the cart listing's [select]: its cart item belongs to the
    user, and is joined with its product, which is available, and with the
    product's seller. *)
Definition cartRowOk (db : Db) (userId : Id) (c : CartItem.t) (p : Product.t)
  (u : User.t) : Prop :=
  In c (cartItems db) /\ In p (products db) /\ In u (users db)
  /\ CartItem.userId c = userId
  /\ CartItem.productId c = Product.id p
  /\ Product.sellerId p = User.id u
  /\ Product.available p = Some true.

Definition itemOk (db : Db) (userId : Id) (i : CartItemWithProduct.t) : Prop :=
  cartRowOk db userId (CartItemWithProduct.row i) (productOf i)
    (ProductWithSeller.seller (CartItemWithProduct.product i)).

(** ** A cart for the examples

    Buyer [u1] holds [a] (two of P1 at 10.00), [b] (one of P2 at 5.00) and
    [d] (one of P3, which is no longer available); [c] is in the cart of
    [u2].  [c1] and [c2] are the carbon savings of P1 and P2. *)

Definition someUser (id : Id) (carbon : Q) : User.t :=
  User.mk id None None None None (Some "buyer") carbon None.

Definition someProduct (id : Id) (price carbon : Q) (available : bool)
  : Product.t :=
  Product.mk id "s1" "item" "used item" price None other good 8%Z []
    carbon None "A" (Some false) (Some available) (Some false) 0%Z.

Definition exampleDb (c1 c2 : Q) : Db :=
  mkDb
    [someUser "s1" 0; someUser "u1" 4; someUser "u2" 0]
    [someProduct "P1" 10 c1 true; someProduct "P2" 5 c2 true;
     someProduct "P3" 7 1 false]
    [Review.mk "r1" "P1" "u2" 5%Z None; Review.mk "r2" "P1" "u1" 4%Z None]
    [CartItem.mk "a" "u1" "P1" 2%Z; CartItem.mk "b" "u1" "P2" 1%Z;
     CartItem.mk "c" "u2" "P1" 1%Z; CartItem.mk "d" "u1" "P3" 1%Z]
    [] [] 0.

(** ** Cart quantity updates *)

(** The claim as the specification words it: whatever the request, the
    row updated through [PUT /api/cart/:id] holds at least 1 afterwards. *)
Definition PutCartKeepsAtLeastOne : Prop :=
  forall (db : Db) (id : Id) (quantity : Z) (c : CartItem.t),
    status (fst (putCartRoute id quantity db)) = 200%nat ->
    In c (cartItems (snd (putCartRoute id quantity db))) ->
    CartItem.id c = id ->
    (1 <= CartItem.quantity c)%Z.

(** The requests the cart page can send: from the plus and minus buttons,
    or from the quantity input. *)
Inductive sentByCartControls : QuantityMutation -> Prop :=
| from_button (id : Id) (currentQuantity change : Z) (m : QuantityMutation) :
    updateQuantity id currentQuantity change = Some m ->
    sentByCartControls m
| from_input (id : Id) (parsed : option Z) :
    sentByCartControls (onQuantityChange id parsed).

(** ** Payment intents *)

Definition is4xx (s : nat) : Prop := (400 <= s < 500)%nat.

Definition nonPositiveOrMissing (amount : option Q) : Prop :=
  amount = None \/ exists a, amount = Some a /\ a <= 0.

(** The claim as the specification words it: a non-positive or missing
    amount always gets a 4xx answer and reaches the processor never. *)
Definition InvalidAmountAlways4xx : Prop :=
  forall (stripe : option Stripe.Client) (userId : Id) (amount : option Q)
         (ids : list Id),
    nonPositiveOrMissing amount ->
    is4xx (status (fst (createPaymentIntentRoute stripe userId amount ids)))
    /\ snd (createPaymentIntentRoute stripe userId amount ids) = [].

(** ** Product views *)




(** ** Orders and later writes to products *)

(** The writes the storage layer offers on the products table. *)
Inductive ProductWrite :=
| WCreate (product : InsertProduct.t)
| WUpdate (id : Id) (updates : ProductUpdates.t)
| WDelete (id : Id)
| WViews (id : Id).

Definition productWrite (w : ProductWrite) : Storage unit :=
  match w with
  | WCreate product => _ <- createProduct product ;; ret tt
  | WUpdate id updates => _ <- updateProduct id updates ;; ret tt
  | WDelete id => deleteProduct id
  | WViews id => incrementProductViews id
  end.

(** A joined order row after the products table went through [f]. *)
Definition onProduct (f : Product.t -> Product.t) (r : OrderRow) : OrderRow :=
  (fst (fst (fst r)), snd (fst (fst r)), option_map f (snd (fst r)), snd r).

(** What [getOrder] returns from the orders and order-items tables: the
    order row and its order items, without the joined product and seller. *)
Definition orderLines (o : option OrderWithItems.t)
  : option (Order.t * list OrderItem.t) :=
  option_map
    (fun o => (OrderWithItems.row o,
               map OrderWithItems.line (OrderWithItems.items o))) o.

(** ** The carbon counter *)


(** The world after a sequence of requests, handled one after another. *)
Fixpoint run (stripe : option Stripe.Client) (w : World)
  (reqs : list Request) : World :=
  match reqs with
  | [] => w
  | r :: rs => run stripe (snd (handle stripe w r)) rs
  end.


(** ** Unavailable products *)

(** No stored product with the cart row's product id is available. *)
Definition unavailable (db : Db) (c : CartItem.t) : Prop :=
  forall p, In p (products db) -> Product.id p = CartItem.productId c ->
            Product.available p <> Some true.

(** ** Impact metrics *)

(** The carbon total of an order as the page reads it: 0 when the column
    is null. *)
Definition orderCarbon (o : OrderWithItems.t) : Q :=
  orDefault (Order.totalCarbonSaved (OrderWithItems.row o)) 0.

(** * The rest of the client and the standalone login server *)

(** ** The checkout page ([CheckoutForm], [Checkout]): totals and the
    payment-intent request *)

Module Checkout.

(** [cartItems?.reduce((sum, item) => sum + parseFloat(item.product.price)
    * item.quantity, 0) || 0]; [cartItems] is [None] while the cart query
    has no data.  The cart page computes the same two totals. *)
Definition totalAmount (cartItems : option (list CartItemWithProduct.t)) : Q :=
  match cartItems with
  | None => 0
  | Some items =>
      ImpactMetrics.orZero
        (fold_left
           (fun sum item =>
              sum + parseFloat
                      (Product.price
                         (ProductWithSeller.row
                            (CartItemWithProduct.product item)))
                    * inject_Z (CartItemWithProduct.quantity item))
           items 0)
  end.

Definition totalCarbonSaved (cartItems : option (list CartItemWithProduct.t))
  : Q :=
  match cartItems with
  | None => 0
  | Some items =>
      ImpactMetrics.orZero
        (fold_left
           (fun sum item =>
              sum + parseFloat
                      (Product.carbonSaved
                         (ProductWithSeller.row
                            (CartItemWithProduct.product item)))
                    * inject_Z (CartItemWithProduct.quantity item))
           items 0)
  end.

(** [cartItems.map(item => item.id)] *)
Definition cartItemIds (cartItems : list CartItemWithProduct.t) : list Id :=
  map CartItemWithProduct.id cartItems.


End Checkout.

(** ** The product card ([ProductCard]) *)

Module ProductCard.

(** [product.reviews.length > 0 ? product.reviews.reduce((sum, review) =>
    sum + review.rating, 0) / product.reviews.length : 0]; the product page
    computes the same value. *)
Definition averageRating (product : ProductWithSeller.t) : Q :=
  let reviews := ProductWithSeller.reviews product in
  if Nat.ltb 0 (List.length reviews)
  then fold_left (fun sum review => sum + inject_Z (Review.rating review))
         reviews 0
       / inject_Z (Z.of_nat (List.length reviews))
  else 0.

(** [product.originalPrice ? Math.round((1 - parseFloat(product.price) /
    parseFloat(product.originalPrice)) * 100) : 0] *)
Definition discountPercentage (product : ProductWithSeller.t) : Z :=
  match Product.originalPrice (ProductWithSeller.row product) with
  | Some originalPrice =>
      Math_round
        ((1 - parseFloat (Product.price (ProductWithSeller.row product))
              / parseFloat originalPrice) * 100)
  | None => 0%Z
  end.

End ProductCard.

(** ** The sell page ([Sell]): the list of image URLs *)

Module Sell.

(** [addImageUrl]; [trimmed] is [newImageUrl.trim()].  The result is the
    new [imageUrls]. *)
Definition addImageUrl (trimmed : string) (imageUrls : list string)
  : list string :=
  if negb (String.eqb trimmed "") && negb (includes imageUrls trimmed)
  then (imageUrls ++ [trimmed])%list
  else imageUrls.

(** [removeImageUrl] *)
Definition removeImageUrl (url : string) (imageUrls : list string)
  : list string :=
  filter (fun u => negb (String.eqb u url)) imageUrls.

(** [onSubmit]: the images sent with the form, or nothing when the list is
    empty. *)
Definition onSubmit (imageUrls : list string) : option (list string) :=
  if Nat.eqb (List.length imageUrls) 0 then None else Some imageUrls.

End Sell.

(** ** iindex.js: the standalone register/login server *)

Module Iindex.









End Iindex.

(** ** Vocabulary of the further properties *)

(** Same product row, up to its view counter. *)
Definition sameButViews (p p' : Product.t) : Prop :=
  p' = Product.with_views p (Product.views p').

(** Same user row, same carbon counter. *)
Definition sameCounter (u u' : User.t) : Prop :=
  User.id u' = User.id u
  /\ User.totalCarbonSaved u' = User.totalCarbonSaved u.

(** The cart rows of one user. *)
Definition ownRows (userId : Id) (rows : list CartItem.t) : list CartItem.t :=
  filter (fun c => String.eqb (CartItem.userId c) userId) rows.

(** Each key of the cart map is the id of the item stored under it. *)
Definition keyedById (m : JsMap CartItemWithProduct.t) : Prop :=
  Forall (fun e => fst e = CartItemWithProduct.id (snd e)) m.

(** The order row written by [updateOrderStatus] from [o]. *)
Definition statusOnly (o o' : Order.t) : Prop :=
  exists s, o' = Order.with_status o s.

(** The joins of the cart listing, started from a list of cart rows. *)
Definition cartJoin (db : Db) (rows : list CartItem.t) : list CartRow :=
  leftJoin
    (innerJoin
       (innerJoin rows (products db)
          (fun c p => String.eqb (CartItem.productId c) (Product.id p)))
       (users db)
       (fun cp u => String.eqb (Product.sellerId (snd cp)) (User.id u)))
    (reviews db)
    (fun cpu r =>
       String.eqb (Product.id (snd (fst cpu))) (Review.productId r)).

(** The [where] of the cart listing. *)
Definition cartWhere (userId : Id) (row : CartRow) : bool :=
  let '(c, p, _, _) := row in
  String.eqb (CartItem.userId c) userId && sqlIsTrue (Product.available p).

(** The row [upsertUser] writes for [id]: the inserted row when no user
    has the id, the merged row when [existing] has it. *)
Definition upsertedRow (userData : UpsertUser.t) (id : Id)
  (existing : option User.t) : User.t :=
  match existing with
  | None =>
      User.mk id (UpsertUser.email userData) (UpsertUser.firstName userData)
        (UpsertUser.lastName userData) (UpsertUser.profileImageUrl userData)
        (orElse (UpsertUser.userType userData) (Some "buyer"))
        (orDefault (UpsertUser.totalCarbonSaved userData) 0)
        (UpsertUser.stripeCustomerId userData)
  | Some u =>
      User.mk id
        (orElse (UpsertUser.email userData) (User.email u))
        (orElse (UpsertUser.firstName userData) (User.firstName u))
        (orElse (UpsertUser.lastName userData) (User.lastName u))
        (orElse (UpsertUser.profileImageUrl userData)
                (User.profileImageUrl u))
        (orElse (UpsertUser.userType userData) (User.userType u))
        (orDefault (UpsertUser.totalCarbonSaved userData)
                   (User.totalCarbonSaved u))
        (orElse (UpsertUser.stripeCustomerId userData)
                (User.stripeCustomerId u))
  end.

(** The users table after [upsertUser] wrote [user] for [id]. *)
Definition upsertedUsers (id : Id) (existing : option User.t) (user : User.t)
  (us : list User.t) : list User.t :=
  match existing with
  | None => (us ++ [user])%list
  | Some _ => map (fun u => if String.eqb (User.id u) id then user else u) us
  end.

(** What the seller does to the list of image URLs: the add button with
    the trimmed input, or the remove button of one URL. *)
Inductive ImageAction :=
| AddImage (trimmed : string)
| RemoveImage (url : string).

Definition applyImageAction (imageUrls : list string) (a : ImageAction)
  : list string :=
  match a with
  | AddImage trimmed => Sell.addImageUrl trimmed imageUrls
  | RemoveImage url => Sell.removeImageUrl url imageUrls
  end.



(** * Properties *)

(** ** The accumulating [map] of create-order *)

Lemma orderLineStep_fold (items : list CartItemWithProduct.t) :
  forall a c ls,
    let '(a', c', ls') := fold_left orderLineStep items (a, c, ls) in
    a' == a + sumQ (map lineAmount items)
    /\ c' == c + sumQ (map lineCarbon items)
    /\ ls' = (ls ++ map snapshot items)%list.
Proof.
  induction items as [|item items IH]; intros a c ls; simpl.
  - repeat split; try ring. now rewrite app_nil_r.
  - specialize (IH (a + parseFloat (Product.price (productOf item))
                        * inject_Z (CartItemWithProduct.quantity item))
                   (c + parseFloat (Product.carbonSaved (productOf item))
                        * inject_Z (CartItemWithProduct.quantity item))
                   (ls ++ [snapshot item])%list).
    unfold productOf, snapshot in *.
    destruct (fold_left orderLineStep items _) as [[a' c'] ls'].
    destruct IH as (Ha & Hc & Hl).
    repeat split.
    + rewrite Ha. unfold lineAmount, parseFloat, productOf. ring.
    + rewrite Hc. unfold lineCarbon, parseFloat, productOf. ring.
    + rewrite Hl, <- app_assoc. reflexivity.
Qed.

(** ** The cart-clearing loop *)

Lemma forOf_removeFromCart (ids : list Id) :
  forall db,
    let db' := snd (forOf ids removeFromCart db) in
    cartItems db'
    = filter (fun c => negb (includes ids (CartItem.id c))) (cartItems db)
    /\ users db' = users db
    /\ products db' = products db
    /\ reviews db' = reviews db
    /\ orders db' = orders db
    /\ orderItems db' = orderItems db
    /\ uuidCounter db' = uuidCounter db.
Proof.
  induction ids as [|id ids IH]; intros db; simpl.
  - repeat split.
    induction (cartItems db) as [|c l IHl]; simpl; congruence.
  - unfold bind, removeFromCart at 1, execute; simpl.
    specialize (IH (set_cartItems db
                      (filter (fun c => negb (String.eqb (CartItem.id c) id))
                              (cartItems db)))).
    simpl in IH. destruct IH as (Hc & Hrest).
    split; [|exact Hrest].
    rewrite Hc. clear.
    induction (cartItems db) as [|c l IHl]; simpl; [reflexivity|].
    destruct (String.eqb (CartItem.id c) id); simpl.
    + exact IHl.
    + destruct (includes ids (CartItem.id c)); simpl; congruence.
Qed.

(** ** What a placed order leaves in the store *)

Lemma combine_map_r {A B C} (g : B -> C) (l1 : list A) :
  forall l2 : list B,
    combine l1 (map g l2) = map (fun e => (fst e, g (snd e))) (combine l1 l2).
Proof.
  induction l1 as [|a l1 IH]; intros [|b l2]; simpl; try reflexivity.
  now rewrite IH.
Qed.

Lemma createOrderRoute_unfold (db : Db) (userId : Id) (ids : list Id)
  (addr : string) (pi : option string) :
  createOrderRoute userId ids addr pi db
  = let valid := validCartItems db userId ids in
    if Nat.eqb (List.length valid) 0 then
      (mkResponse 400 (JMessage "No valid cart items found"), db)
    else
      let '(totalAmount, totalCarbonSaved, orderItemsData) :=
        fold_left orderLineStep valid (0, 0, []) in
      let oid := gen_random_uuid (uuidCounter db) in
      let order :=
        Order.mk oid userId totalAmount confirmed addr pi
          (Some totalCarbonSaved) in
      let lines :=
        map (fun e => insertOrderItem (fst e) (snd e))
          (combine
             (map gen_random_uuid
                (seq (S (uuidCounter db)) (List.length orderItemsData)))
             (map (fun item => withOrderId item oid) orderItemsData)) in
      let db1 :=
        mkDb (map (addCarbon userId totalCarbonSaved) (users db))
          (products db) (reviews db) (cartItems db)
          (orders db ++ [order]) (orderItems db ++ lines)
          (S (uuidCounter db) + List.length orderItemsData) in
      (mkResponse 201 (JOrderId oid), snd (forOf ids removeFromCart db1)).
Proof.
  unfold createOrderRoute, validCartItems, bind at 1.
  unfold getCartItems at 1, query. cbn [fst].
  destruct (Nat.eqb _ 0); [reflexivity|].
  destruct (fold_left orderLineStep _ _) as [[ta tc] ls].
  unfold bind, createOrder, createOrderItems, freshId, freshIds, execute,
    updateUserCarbonSaved, ret. cbn.
  rewrite length_map.
  destruct (forOf ids removeFromCart _) as [[] dfin]. reflexivity.
Qed.

Lemma createOrderRoute_placed (db : Db) (userId : Id) (ids : list Id)
  (addr : string) (pi : option string) :
  validCartItems db userId ids <> [] ->
  exists totalAmount totalCarbon,
    totalAmount == sumQ (map lineAmount (validCartItems db userId ids))
    /\ totalCarbon == sumQ (map lineCarbon (validCartItems db userId ids))
    /\ let oid := gen_random_uuid (uuidCounter db) in
       let order :=
         Order.mk oid userId totalAmount confirmed addr pi (Some totalCarbon) in
       let lines :=
         map (fun e => insertOrderItem (fst e) (withOrderId (snd e) oid))
           (combine
              (map gen_random_uuid
                 (seq (S (uuidCounter db))
                    (List.length (validCartItems db userId ids))))
              (map snapshot (validCartItems db userId ids))) in
       let db' := snd (createOrderRoute userId ids addr pi db) in
       fst (createOrderRoute userId ids addr pi db)
       = mkResponse 201 (JOrderId oid)
       /\ orders db' = (orders db ++ [order])%list
       /\ orderItems db' = (orderItems db ++ lines)%list
       /\ users db' = map (addCarbon userId totalCarbon) (users db)
       /\ cartItems db'
          = filter (fun c => negb (includes ids (CartItem.id c)))
                   (cartItems db)
       /\ products db' = products db
       /\ reviews db' = reviews db.
Proof.
  intros Hne.
  rewrite createOrderRoute_unfold. cbv zeta.
  set (valid := validCartItems db userId ids) in *.
  destruct valid as [|v0 vs] eqn:Hv; [congruence|].
  rewrite <- Hv. replace (Nat.eqb (List.length valid) 0) with false
    by (rewrite Hv; reflexivity).
  pose proof (orderLineStep_fold valid 0 0 []) as Hfold.
  destruct (fold_left orderLineStep valid (0, 0, [])) as [[ta tc] ls].
  destruct Hfold as (Ha & Hc & Hl). simpl in Hl. subst ls.
  exists ta, tc.
  split; [rewrite Ha; ring|]. split; [rewrite Hc; ring|].
  match goal with
  | |- context [forOf ids removeFromCart ?d] =>
      pose proof (forOf_removeFromCart ids d) as Hrm;
      destruct (forOf ids removeFromCart d) as [[] dfin]
  end.
  cbn [fst snd] in *.
  destruct Hrm as (H1 & H2 & H3 & H4 & H5 & H6 & _).
  rewrite H1, H2, H3, H4, H5, H6.
  cbn [users products reviews cartItems orders orderItems].
  rewrite !length_map.
  repeat split; try reflexivity.
  f_equal. rewrite combine_map_r, map_map. reflexivity.
Qed.

(** ** Joins *)

Lemma in_innerJoin {A B} (l : list A) (r : list B) (on : A -> B -> bool)
  (a : A) (b : B) :
  In (a, b) (innerJoin l r on) <-> In a l /\ In b r /\ on a b = true.
Proof.
  unfold innerJoin. rewrite in_flat_map. split.
  - intros (a' & Ha' & Hin). apply in_map_iff in Hin.
    destruct Hin as (b' & Heq & Hb'). inversion Heq; subst.
    apply filter_In in Hb'. tauto.
  - intros (Ha & Hb & Hon). exists a. split; [assumption|].
    apply in_map. apply filter_In. tauto.
Qed.

Lemma in_leftJoin {A B} (l : list A) (r : list B) (on : A -> B -> bool)
  (a : A) (ob : option B) :
  In (a, ob) (leftJoin l r on) ->
  In a l
  /\ match ob with
     | Some b => In b r /\ on a b = true
     | None => filter (on a) r = []
     end.
Proof.
  unfold leftJoin. rewrite in_flat_map. intros (a' & Ha' & Hin).
  destruct (filter (on a') r) as [|b0 m] eqn:Hf.
  - destruct Hin as [Heq|[]]. inversion Heq; subst. tauto.
  - apply in_map_iff in Hin. destruct Hin as (b & Heq & Hb).
    inversion Heq; subst. split; [assumption|].
    rewrite <- Hf in Hb. apply filter_In in Hb. exact Hb.
Qed.

(** ** The cart listing *)

Lemma cartRows_sound (db : Db) (userId : Id) (c : CartItem.t) (p : Product.t)
  (u : User.t) (r : option Review.t) :
  In (c, p, u, r) (cartRows db userId) -> cartRowOk db userId c p u.
Proof.
  unfold cartRows. rewrite filter_In. intros [Hj Hw].
  apply in_leftJoin in Hj. destruct Hj as [Hj _].
  apply in_innerJoin in Hj. destruct Hj as (Hcp & Hu & Hon2).
  apply in_innerJoin in Hcp. destruct Hcp as (Hc & Hp & Hon1).
  apply andb_true_iff in Hw. destruct Hw as [Hw1 Hw2].
  apply String.eqb_eq in Hon1, Hon2, Hw1. cbn [fst snd] in Hon2.
  unfold cartRowOk. repeat split; try assumption.
  unfold sqlIsTrue in Hw2.
  destruct (Product.available p) as [[|]|]; congruence.
Qed.

Lemma mapSet_Forall {V} (P : Id * V -> Prop) (m : JsMap V) (k : Id) (v : V) :
  Forall P m -> (forall k', P (k', v)) -> Forall P (mapSet m k v).
Proof.
  intros Hm Hv. induction Hm as [|[k' v'] m' Hh Ht IH]; simpl.
  - constructor; [apply Hv|constructor].
  - destruct (String.eqb k' k); constructor; auto.
Qed.

Lemma mapAdjust_Forall {V} (P : Id * V -> Prop) (m : JsMap V) (k : Id)
  (f : V -> V) :
  Forall P m -> (forall e, P e -> P (fst e, f (snd e))) ->
  Forall P (mapAdjust m k f).
Proof.
  intros Hm Hf. unfold mapAdjust. apply Forall_map.
  eapply Forall_impl; [|exact Hm].
  intros e He. destruct (String.eqb (fst e) k); auto.
Qed.

Lemma groupCartRow_ok (db : Db) (userId : Id) (rows : list CartRow) :
  (forall row, In row rows -> In row (cartRows db userId)) ->
  forall m,
    Forall (fun e => itemOk db userId (snd e)) m ->
    Forall (fun e => itemOk db userId (snd e)) (fold_left groupCartRow rows m).
Proof.
  induction rows as [|row rows IH]; intros Hrows m Hm; simpl; [assumption|].
  apply IH; [intros; apply Hrows; now right|].
  destruct row as [[[c p] u] r].
  assert (Hok : cartRowOk db userId c p u)
    by (eapply cartRows_sound; apply Hrows; now left).
  unfold groupCartRow.
  assert (Hm1 : Forall (fun e => itemOk db userId (snd e))
                  (if mapHas m (CartItem.id c) then m
                   else mapSet m (CartItem.id c)
                          (CartItemWithProduct.mk c
                             (ProductWithSeller.mk p u [])))).
  { destruct (mapHas m (CartItem.id c)); [assumption|].
    apply mapSet_Forall; [assumption|]. intros k0. exact Hok. }
  destruct r as [rv|]; [|assumption].
  apply mapAdjust_Forall; [assumption|].
  intros e He. exact He.
Qed.

Lemma getCartItems_sound (db : Db) (userId : Id) (i : CartItemWithProduct.t) :
  In i (fst (getCartItems userId db)) -> itemOk db userId i.
Proof.
  unfold getCartItems, query, mapValues. cbn [fst]. intros Hin.
  apply in_map_iff in Hin. destruct Hin as (e & Heq & He). subst i.
  pose proof (groupCartRow_ok db userId (cartRows db userId)
                (fun _ H => H) [] (Forall_nil _)) as Hall.
  rewrite Forall_forall in Hall. exact (Hall e He).
Qed.

Lemma getCartItems_reads (db : Db) (userId : Id) :
  snd (getCartItems userId db) = db.
Proof. reflexivity. Qed.

Lemma validCartItems_sound (db : Db) (userId : Id) (ids : list Id)
  (i : CartItemWithProduct.t) :
  In i (validCartItems db userId ids) ->
  itemOk db userId i /\ In (CartItemWithProduct.id i) ids.
Proof.
  unfold validCartItems, selectCartItems. rewrite filter_In.
  intros [Hin Hsel]. split; [now apply getCartItems_sound|].
  unfold includes in Hsel. apply existsb_exists in Hsel.
  destruct Hsel as (x & Hx & Heq). apply String.eqb_eq in Heq. now subst.
Qed.

(** ** Order totals and order items *)

Lemma snapshot_lines (oid : Id) (valid : list CartItemWithProduct.t) :
  forall n,
    Forall2 (snapshotOf oid) valid
      (map (fun e => insertOrderItem (fst e) (withOrderId (snd e) oid))
         (combine (map gen_random_uuid (seq n (List.length valid)))
                  (map snapshot valid))).
Proof.
  induction valid as [|item valid IH]; intros n; cbn [List.length seq map combine].
  - constructor.
  - constructor; [|apply IH].
    unfold snapshotOf; cbn. repeat split; reflexivity.
Qed.

Lemma create_order_lines (db : Db) (userId : Id) (ids : list Id)
  (addr : string) (pi : option string) :
  validCartItems db userId ids <> [] ->
  exists oid lines,
    orderItems (snd (createOrderRoute userId ids addr pi db))
    = (orderItems db ++ lines)%list
    /\ Forall2 (snapshotOf oid) (validCartItems db userId ids) lines.
Proof.
  intros Hne.
  destruct (createOrderRoute_placed db userId ids addr pi Hne)
    as (ta & tc & _ & _ & _ & _ & Hitems & _).
  eexists. eexists. split; [exact Hitems|apply snapshot_lines].
Qed.



(** The same example for any carbon savings [c1] of P1 and [c2] of P2;
    the unselected rows [c] and [d] and the reviews of P1 add nothing. *)
Example create_order_example (c1 c2 : Q) :
  exists (order : Order.t) (carbon : Q),
    orders (snd (createOrderRoute "u1" ["a"; "b"] "addr" (Some "pi_1")
                   (exampleDb c1 c2)))
    = [order]
    /\ Order.totalAmount order == 25
    /\ Order.totalCarbonSaved order = Some carbon
    /\ carbon == 2 * c1 + c2.
Proof.
  rewrite createOrderRoute_unfold.
  assert (Hv : validCartItems (exampleDb c1 c2) "u1" ["a"; "b"]
               = [CartItemWithProduct.mk (CartItem.mk "a" "u1" "P1" 2%Z)
                    (ProductWithSeller.mk (someProduct "P1" 10 c1 true)
                       (someUser "s1" 0)
                       [Review.mk "r1" "P1" "u2" 5%Z None;
                        Review.mk "r2" "P1" "u1" 4%Z None]);
                  CartItemWithProduct.mk (CartItem.mk "b" "u1" "P2" 1%Z)
                    (ProductWithSeller.mk (someProduct "P2" 5 c2 true)
                       (someUser "s1" 0) [])])
    by reflexivity.
  cbv zeta. rewrite Hv.
  cbn [List.length Nat.eqb fold_left orderLineStep].
  match goal with
  | |- context [forOf ?i removeFromCart ?d] =>
      pose proof (forOf_removeFromCart i d) as Hrm;
      destruct (forOf i removeFromCart d) as [[] dfin]
  end.
  cbn [fst snd] in *. destruct Hrm as (_ & _ & _ & _ & Ho & _).
  rewrite Ho. cbn [orders exampleDb app].
  eexists. eexists. split; [reflexivity|].
  cbn [Order.totalAmount Order.totalCarbonSaved].
  split; [|split; [reflexivity|]].
  - unfold parseFloat, productOf. cbn. reflexivity.
  - unfold parseFloat, productOf. cbn.
    unfold CartItemWithProduct.quantity. cbn. ring.
Qed.

(** ** Order placement with nothing selected *)

(** C2. When none of the requested ids is in the caller's cart listing,
    create-order answers 400 and the store and the processor's call log are
    what they were: no order, no order item, no counter update, no cart
    deletion. *)
Theorem create_order_empty_selection (stripe : option Stripe.Client)
  (w : World) (userId : Id) (ids : list Id) (addr : string)
  (pi : option string) :
  (forall item, In item (fst (getCartItems userId (db w))) ->
                ~ In (CartItemWithProduct.id item) ids) ->
  handle stripe w (CreateOrder userId ids addr pi)
  = (mkResponse 400 (JMessage "No valid cart items found"), w).
Proof.
  intros Hdisj.
  assert (Hv : validCartItems (db w) userId ids = []).
  { destruct (validCartItems (db w) userId ids) as [|i l] eqn:Hv;
      [reflexivity|].
    assert (Hin : In i (validCartItems (db w) userId ids))
      by (rewrite Hv; now left).
    unfold validCartItems, selectCartItems in Hin.
    apply filter_In in Hin. destruct Hin as [Hin Hsel].
    exfalso. apply (Hdisj i Hin).
    unfold includes in Hsel. apply existsb_exists in Hsel.
    destruct Hsel as (x & Hx & Heq). apply String.eqb_eq in Heq. now subst. }
  unfold handle, onStore. rewrite createOrderRoute_unfold. cbv zeta.
  rewrite Hv. cbn [List.length Nat.eqb]. destruct w; reflexivity.
Qed.

(** Buyer [u1] asks for [c], which sits in the cart of [u2], and for an id
    that no cart has. *)
Lemma create_order_empty_selection_witness :
  handle None (mkWorld (exampleDb 1 1) []) (CreateOrder "u1" ["c"; "zz"] "addr" None)
  = (mkResponse 400 (JMessage "No valid cart items found"),
     mkWorld (exampleDb 1 1) []).
Proof.
  apply (create_order_empty_selection None (mkWorld (exampleDb 1 1) [])).
  cbn [db]. intros item Hin.
  assert (Hl : map CartItemWithProduct.id
                 (fst (getCartItems "u1" (exampleDb 1 1))) = ["a"; "b"])
    by reflexivity.
  apply (in_map CartItemWithProduct.id) in Hin. rewrite Hl in Hin.
  simpl in *. intros [H|[H|[]]]; destruct Hin as [H'|[H'|[]]];
    rewrite <- H' in H; discriminate.
Defined.

(** ** Cart quantity updates: what is stored *)

Lemma putCartRoute_stores (db : Db) (id : Id) (quantity : Z) :
  status (fst (putCartRoute id quantity db)) = 200%nat
  /\ cartItems (snd (putCartRoute id quantity db))
     = map (fun c => if String.eqb (CartItem.id c) id
                     then CartItem.with_quantity c quantity else c)
           (cartItems db).
Proof. split; reflexivity. Qed.

(** [PUT /api/cart/a] with [{ quantity: 0 }] is accepted and stores 0. *)
Lemma put_cart_stores_zero : ~ PutCartKeepsAtLeastOne.
Proof.
  intros H.
  specialize (H (exampleDb 1 1) "a" 0%Z (CartItem.mk "a" "u1" "P1" 0%Z)
                eq_refl).
  cbn in H. specialize (H (or_introl eq_refl) eq_refl). lia.
Qed.

(** C3, amended. The server stores the quantity of the request as it is, in
    every cart row with the request's id and in no other; a request sent by
    the cart page's controls carries a quantity of at least 1, so the rows
    it updates hold at least 1 afterwards. *)
Theorem cart_controls_keep_at_least_one (stripe : option Stripe.Client)
  (w : World) (m : QuantityMutation) :
  sentByCartControls m ->
  Forall2
    (fun c c' =>
       if String.eqb (CartItem.id c) (mutation_id m)
       then c' = CartItem.with_quantity c (mutation_quantity m)
            /\ (1 <= CartItem.quantity c')%Z
       else c' = c)
    (cartItems (db w))
    (cartItems (db (snd (handle stripe w (mutationFn m))))).
Proof.
  intros Hsent.
  assert (Hq : (1 <= mutation_quantity m)%Z).
  { destruct Hsent as [id cur change m Hm | id parsed].
    - unfold updateQuantity in Hm.
      destruct (negb _); inversion Hm; subst; cbn; lia.
    - cbn. lia. }
  unfold mutationFn, handle, onStore.
  destruct (putCartRoute (mutation_id m) (mutation_quantity m) (db w))
    as [res db'] eqn:Hput.
  cbn [snd db].
  pose proof (putCartRoute_stores (db w) (mutation_id m) (mutation_quantity m))
    as [_ Hrows].
  rewrite Hput in Hrows. cbn [snd] in Hrows. rewrite Hrows.
  clear Hrows Hput.
  induction (cartItems (db w)) as [|c l IH]; cbn [map]; constructor;
    [|exact IH].
  destruct (String.eqb (CartItem.id c) (mutation_id m)); [|reflexivity].
  split; [reflexivity|exact Hq].
Qed.

(** The minus button on a row holding 3. *)
Lemma cart_controls_keep_at_least_one_witness :
  sentByCartControls (mkMutation "a" 2%Z)
  /\ Forall2
       (fun c c' =>
          if String.eqb (CartItem.id c) "a"
          then c' = CartItem.with_quantity c 2%Z
               /\ (1 <= CartItem.quantity c')%Z
          else c' = c)
       (cartItems (exampleDb 1 1))
       (cartItems
          (db (snd (handle None (mkWorld (exampleDb 1 1) [])
                      (mutationFn (mkMutation "a" 2%Z)))))).
Proof.
  assert (Hs : sentByCartControls (mkMutation "a" 2%Z))
    by (apply (from_button "a" 3%Z (-1)%Z); reflexivity).
  split; [exact Hs|].
  exact (cart_controls_keep_at_least_one None (mkWorld (exampleDb 1 1) [])
           (mkMutation "a" 2%Z) Hs).
Defined.

(** ** Cart clearing after a placed order *)

(** C4. After a placed order the cart table is the old one without the
    rows whose id the client listed: every listed row is gone, whoever owns
    it and whatever its product's availability, and every other row stays. *)
Theorem create_order_clears_listed_ids (db : Db) (userId : Id)
  (ids : list Id) (addr : string) (pi : option string) :
  validCartItems db userId ids <> [] ->
  status (fst (createOrderRoute userId ids addr pi db)) = 201%nat
  /\ cartItems (snd (createOrderRoute userId ids addr pi db))
     = filter (fun c => negb (includes ids (CartItem.id c))) (cartItems db)
  /\ forall c, In c (cartItems db) ->
       (In (CartItem.id c) ids ->
        ~ In c (cartItems (snd (createOrderRoute userId ids addr pi db))))
       /\ (~ In (CartItem.id c) ids ->
           In c (cartItems (snd (createOrderRoute userId ids addr pi db)))).
Proof.
  intros Hne.
  destruct (createOrderRoute_placed db userId ids addr pi Hne)
    as (ta & tc & _ & _ & Hres & _ & _ & _ & Hcart & _).
  split; [rewrite Hres; reflexivity|]. split; [exact Hcart|].
  intros c Hc. rewrite Hcart. split.
  - intros Hin Hkept. apply filter_In in Hkept. destruct Hkept as [_ Hneg].
    apply negb_true_iff in Hneg.
    assert (Hinc : includes ids (CartItem.id c) = true).
    { unfold includes. apply existsb_exists. exists (CartItem.id c).
      split; [assumption|apply String.eqb_refl]. }
    congruence.
  - intros Hnin. apply filter_In. split; [assumption|].
    apply negb_true_iff. destruct (includes ids (CartItem.id c)) eqn:Hinc;
      [|reflexivity].
    exfalso. apply Hnin. unfold includes in Hinc.
    apply existsb_exists in Hinc. destruct Hinc as (x & Hx & Heq).
    apply String.eqb_eq in Heq. now subst.
Qed.

(** Buyer [u1] lists [a], [c] (in the cart of [u2]) and [d] (its product
    is unavailable): only [a] is billed, and all three rows are deleted. *)
Lemma create_order_clears_listed_ids_witness :
  validCartItems (exampleDb 1 1) "u1" ["a"; "c"; "d"] <> []
  /\ map CartItemWithProduct.id
       (validCartItems (exampleDb 1 1) "u1" ["a"; "c"; "d"]) = ["a"]
  /\ cartItems (snd (createOrderRoute "u1" ["a"; "c"; "d"] "addr" None
                       (exampleDb 1 1)))
     = [CartItem.mk "b" "u1" "P2" 1%Z].
Proof.
  assert (Hne : validCartItems (exampleDb 1 1) "u1" ["a"; "c"; "d"] <> [])
    by (vm_compute; discriminate).
  split; [exact Hne|]. split; [reflexivity|].
  destruct (create_order_clears_listed_ids (exampleDb 1 1) "u1"
              ["a"; "c"; "d"] "addr" None Hne) as (_ & Hcart & _).
  rewrite Hcart. reflexivity.
Defined.

(** ** Payment intents *)

Lemma invalidAmount_true (amount : option Q) :
  nonPositiveOrMissing amount -> invalidAmount amount = true.
Proof.
  intros [->|(a & -> & Ha)]; [reflexivity|].
  unfold invalidAmount. apply orb_true_iff. right.
  now apply Qle_bool_iff.
Qed.

(** Without a configured processor the answer to amount 0 is 503. *)
Lemma invalid_amount_unconfigured_is_503 : ~ InvalidAmountAlways4xx.
Proof.
  intros H.
  destruct (H None "u1" (Some 0) ["a"]) as [[Hlo Hhi] _].
  - right. exists 0. split; [reflexivity|apply Qle_refl].
  - cbn in Hhi. lia.
Qed.

(** C6, amended. A payment-intent request whose amount is missing or not
    positive reaches the processor never and changes nothing; it is
    answered 400 when a processor is configured and 503 when none is. *)
Theorem payment_intent_invalid_amount (stripe : option Stripe.Client)
  (w : World) (userId : Id) (amount : option Q) (ids : list Id) :
  nonPositiveOrMissing amount ->
  snd (createPaymentIntentRoute stripe userId amount ids) = []
  /\ snd (handle stripe w (CreatePaymentIntent userId amount ids)) = w
  /\ fst (handle stripe w (CreatePaymentIntent userId amount ids))
     = match stripe with
       | Some _ => mkResponse 400 (JMessage "Invalid amount")
       | None =>
           mkResponse 503
             (JMessage
                "Payment processing is not configured. Please contact support.")
       end.
Proof.
  intros Hbad. apply invalidAmount_true in Hbad.
  unfold handle, createPaymentIntentRoute. rewrite Hbad.
  destruct stripe as [client|]; cbn [fst snd]; rewrite app_nil_r;
    destruct w; repeat split; reflexivity.
Qed.

(** A configured processor and the amount -5. *)
Lemma payment_intent_invalid_amount_witness :
  nonPositiveOrMissing (Some (-5 # 1))
  /\ handle (Some (fun _ => Stripe.Resolved "secret"))
       (mkWorld (exampleDb 1 1) [])
       (CreatePaymentIntent "u1" (Some (-5 # 1)) ["a"])
     = (mkResponse 400 (JMessage "Invalid amount"),
        mkWorld (exampleDb 1 1) []).
Proof.
  assert (Hbad : nonPositiveOrMissing (Some (-5 # 1))).
  { right. exists (-5 # 1). split; [reflexivity|].
    unfold Qle; simpl; lia. }
  split; [exact Hbad|].
  destruct (payment_intent_invalid_amount
              (Some (fun _ => Stripe.Resolved "secret"))
              (mkWorld (exampleDb 1 1) []) "u1" (Some (-5 # 1)) ["a"] Hbad)
    as (_ & Hw & Hres).
  rewrite (surjective_pairing (handle _ _ _)), Hw, Hres. reflexivity.
Defined.

(** A positive amount on a configured processor does reach it, in cents. *)
Example payment_intent_forwarded :
  createPaymentIntentRoute (Some (fun _ => Stripe.Resolved "secret")) "u1"
    (Some (2599 # 100)) ["a"]
  = (mkResponse 200 (JClientSecret "secret"),
     [Stripe.mkParams 2599 "usd" "u1" ["a"]]).
Proof. reflexivity. Qed.

(** ** Product views *)

Lemma leftJoin_complete {A B} (l : list A) (r : list B)
  (on : A -> B -> bool) (a : A) :
  In a l -> exists ob, In (a, ob) (leftJoin l r on).
Proof.
  intros Ha. unfold leftJoin.
  destruct (filter (on a) r) as [|b m] eqn:Hf.
  - exists None. apply in_flat_map. exists a. split; [assumption|].
    rewrite Hf. now left.
  - exists (Some b). apply in_flat_map. exists a. split; [assumption|].
    rewrite Hf. now left.
Qed.

Lemma getProduct_found (db : Db) (id : Id) (p : Product.t) (u : User.t) :
  In p (products db) -> Product.id p = id ->
  In u (users db) -> User.id u = Product.sellerId p ->
  exists found, fst (getProduct id db) = Some found.
Proof.
  intros Hp Hid Hu Hs.
  assert (Hpu : In (p, u)
                  (innerJoin (products db) (users db)
                     (fun p u => String.eqb (Product.sellerId p) (User.id u)))).
  { apply in_innerJoin. repeat split; try assumption.
    apply String.eqb_eq. now symmetry. }
  destruct (leftJoin_complete _ (reviews db)
              (fun pu r => String.eqb (Product.id (fst pu)) (Review.productId r))
              _ Hpu) as (r & Hr).
  assert (Hin : In (p, u, r)
                  (filter (fun r => String.eqb (Product.id (fst (fst r))) id)
                     (productRows db))).
  { apply filter_In. split; [exact Hr|]. cbn. now apply String.eqb_eq. }
  unfold getProduct, query. cbn [fst].
  destruct (filter _ (productRows db)) as [|r0 rest]; [contradiction|].
  eexists; reflexivity.
Qed.


Lemma getProductRoute_unfold (db : Db) (id : Id) :
  getProductRoute id db
  = match fst (getProduct id db) with
    | None => (mkResponse 404 (JMessage "Product not found"), db)
    | Some p =>
        (mkResponse 200 (JProduct p),
         set_products db
           (map (fun p => if String.eqb (Product.id p) id
                          then Product.with_views p (Product.views p + 1)%Z
                          else p)
                (products db)))
    end.
Proof.
  unfold getProductRoute, bind at 1. unfold getProduct at 1, query.
  cbn [fst].
  destruct (fst (getProduct id db)) eqn:Hg; unfold getProduct, query in Hg;
    cbn [fst] in Hg; rewrite Hg; reflexivity.
Qed.






(** ** Orders and later writes to products *)

Lemma productWrite_frame (w : ProductWrite) (db : Db) :
  orders (snd (productWrite w db)) = orders db
  /\ orderItems (snd (productWrite w db)) = orderItems db.
Proof. destruct w; split; reflexivity. Qed.

Lemma productWrites_frame (ws : list ProductWrite) :
  forall db,
    orders (snd (forOf ws productWrite db)) = orders db
    /\ orderItems (snd (forOf ws productWrite db)) = orderItems db.
Proof.
  induction ws as [|w ws IH]; intros db; [split; reflexivity|].
  cbn [forOf]. unfold bind.
  destruct (productWrite w db) as [[] db1] eqn:Hw.
  destruct (productWrite_frame w db) as [Ho Hi].
  rewrite Hw in Ho, Hi. cbn [snd] in Ho, Hi.
  destruct (IH db1) as [Ho' Hi']. split; congruence.
Qed.

Lemma filter_map_swap {A B} (f : A -> B) (q : B -> bool) (l : list A) :
  filter q (map f l) = map f (filter (fun a => q (f a)) l).
Proof.
  induction l as [|a l IH]; cbn; [reflexivity|].
  destruct (q (f a)); cbn; now rewrite IH.
Qed.

Lemma leftJoin_map_r {A B} (f : B -> B) (l : list A) (r : list B)
  (on : A -> B -> bool) :
  (forall a b, on a (f b) = on a b) ->
  leftJoin l (map f r) on
  = map (fun e => (fst e, option_map f (snd e))) (leftJoin l r on).
Proof.
  intros Hon. unfold leftJoin.
  induction l as [|a l IH]; cbn [flat_map]; [reflexivity|].
  rewrite map_app, IH. f_equal.
  rewrite filter_map_swap.
  rewrite (filter_ext _ (on a) (fun b => Hon a b)).
  destruct (filter (on a) r) as [|b m]; [reflexivity|].
  cbn [map]. rewrite !map_map. reflexivity.
Qed.

Lemma leftJoin_map_l {A B} (g : A -> A) (l : list A) (r : list B)
  (on : A -> B -> bool) :
  (forall a b, on (g a) b = on a b) ->
  leftJoin (map g l) r on
  = map (fun e => (g (fst e), snd e)) (leftJoin l r on).
Proof.
  intros Hon. unfold leftJoin.
  induction l as [|a l IH]; [reflexivity|].
  change (map g (a :: l)) with (g a :: map g l). cbn [flat_map].
  rewrite map_app, IH. f_equal.
  rewrite (filter_ext _ (on a) (fun b => Hon a b)).
  destruct (filter (on a) r) as [|b m]; [reflexivity|].
  cbn [map]. rewrite !map_map. reflexivity.
Qed.

Lemma orderRows_products (f : Product.t -> Product.t) (db : Db) :
  (forall p, Product.id (f p) = Product.id p) ->
  orderRows (set_products db (map f (products db)))
  = map (onProduct f) (orderRows db).
Proof.
  intros Hid. unfold orderRows. cbn [set_products orders orderItems products users].
  rewrite leftJoin_map_r.
  - rewrite leftJoin_map_l.
    + apply map_ext. intros [[[o i] p] u]. reflexivity.
    + intros [[o i] p] u. reflexivity.
  - intros [o [i|]] p; cbn; [now rewrite Hid|reflexivity].
Qed.

Lemma keepItems_lines (f : Product.t -> Product.t) (rows : list OrderRow) :
  map OrderWithItems.line (keepItems (map (onProduct f) rows))
  = map OrderWithItems.line (keepItems rows).
Proof.
  unfold keepItems.
  induction rows as [|[[[o i] p] u] rows IH]; [reflexivity|].
  change (map (onProduct f) ((o, i, p, u) :: rows))
    with (onProduct f (o, i, p, u) :: map (onProduct f) rows).
  cbn [flat_map]. rewrite !map_app, IH. f_equal.
  destruct i, p, u; reflexivity.
Qed.

Lemma getOrder_products (f : Product.t -> Product.t) (db : Db) (id : Id) :
  (forall p, Product.id (f p) = Product.id p) ->
  orderLines (fst (getOrder id (set_products db (map f (products db)))))
  = orderLines (fst (getOrder id db)).
Proof.
  intros Hid. unfold getOrder, query. cbn [fst].
  rewrite (orderRows_products f db Hid), filter_map_swap.
  match goal with
  | |- _ = orderLines (match ?R with [] => _ | _ :: _ => _ end) =>
      set (rows := R)
  end.
  change (filter _ (orderRows db)) with rows.
  destruct rows as [|r0 rest]; [reflexivity|].
  cbn [map orderLines option_map OrderWithItems.row OrderWithItems.items].
  f_equal. f_equal.
  exact (keepItems_lines f (r0 :: rest)).
Qed.

(** C5. No write to the products table, and no sequence of them, changes a
    row of the orders or order-items tables; and an order read back through
    [getOrder] after a product was edited shows the same order row, hence
    the same [totalAmount], and the same order items with the same price
    and carbonSaved as before the edit. *)
Theorem orders_keep_their_snapshot (db : Db) (ws : list ProductWrite)
  (productId orderId : Id) (updates : ProductUpdates.t) :
  orders (snd (forOf ws productWrite db)) = orders db
  /\ orderItems (snd (forOf ws productWrite db)) = orderItems db
  /\ orderLines (fst (getOrder orderId (snd (updateProduct productId updates db))))
     = orderLines (fst (getOrder orderId db)).
Proof.
  destruct (productWrites_frame ws db) as [Ho Hi].
  split; [exact Ho|]. split; [exact Hi|].
  change (snd (updateProduct productId updates db))
    with (set_products db
            (map (fun p => if String.eqb (Product.id p) productId
                           then applyUpdates p updates else p)
                 (products db))).
  apply getOrder_products.
  intros p. destruct (String.eqb (Product.id p) productId); reflexivity.
Qed.

(** ** The carbon counter *)








(** What the non-negativity assumption is for: nothing in the handlers
    checks the sign of [carbonSaved], and with P1 at -3 the same order takes
    the buyer's counter from 4 down to -1. *)
Example negative_carbon_lowers_counter :
  map User.totalCarbonSaved
    (users (snd (createOrderRoute "u1" ["a"; "b"] "addr" None
                   (exampleDb (-3 # 1) 1))))
  = [0; 4 + (0 + (-3 # 1) * inject_Z 2 + 1 * inject_Z 1); 0].
Proof. reflexivity. Qed.

(** ** Unavailable products and the cart listing *)

Lemma Forall2_in_r {A B} (R : A -> B -> Prop) (l : list A) (l' : list B)
  (y : B) :
  Forall2 R l l' -> In y l' -> exists x, In x l /\ R x y.
Proof.
  induction 1 as [|x y' l l' Hxy _ IH]; intros Hin; [contradiction|].
  destruct Hin as [<-|Hin].
  - exists x. split; [now left|assumption].
  - destruct (IH Hin) as (x' & Hx' & HR). exists x'. split; [now right|assumption].
Qed.

(** C9. Every item of a cart listing is a stored cart row of that user
    whose product is stored with [available = true].  The listing writes
    nothing, so a cart row whose product is unavailable stays in storage,
    yet it is in no listing, in no selection made by create-order, and
    every order item that create-order adds is the snapshot of an available
    product. *)
Theorem cart_listing_only_available (db : Db) (userId : Id) :
  (forall item, In item (fst (getCartItems userId db)) ->
     In (CartItemWithProduct.row item) (cartItems db)
     /\ CartItem.userId (CartItemWithProduct.row item) = userId
     /\ In (productOf item) (products db)
     /\ Product.id (productOf item)
        = CartItem.productId (CartItemWithProduct.row item)
     /\ Product.available (productOf item) = Some true)
  /\ snd (getCartItems userId db) = db
  /\ (forall c, In c (cartItems db) -> unavailable db c ->
        ~ In c (map CartItemWithProduct.row (fst (getCartItems userId db)))
        /\ forall ids,
             ~ In c (map CartItemWithProduct.row
                       (validCartItems db userId ids)))
  /\ (forall ids addr pi line,
        In line (orderItems (snd (createOrderRoute userId ids addr pi db))) ->
        In line (orderItems db)
        \/ exists p, In p (products db)
                     /\ Product.available p = Some true
                     /\ OrderItem.productId line = Product.id p
                     /\ OrderItem.price line = Product.price p
                     /\ OrderItem.carbonSaved line
                        = Some (Product.carbonSaved p)).
Proof.
  assert (Hlist : forall item, In item (fst (getCartItems userId db)) ->
            In (CartItemWithProduct.row item) (cartItems db)
            /\ CartItem.userId (CartItemWithProduct.row item) = userId
            /\ In (productOf item) (products db)
            /\ Product.id (productOf item)
               = CartItem.productId (CartItemWithProduct.row item)
            /\ Product.available (productOf item) = Some true).
  { intros item Hin. apply getCartItems_sound in Hin.
    destruct Hin as (Hc & Hp & _ & Hu & Hcp & _ & Hav).
    repeat split; try assumption. now symmetry. }
  split; [exact Hlist|]. split; [reflexivity|]. split.
  - intros c Hc Hun.
    assert (Hno : ~ In c (map CartItemWithProduct.row
                            (fst (getCartItems userId db)))).
    { intros Hin. apply in_map_iff in Hin.
      destruct Hin as (item & <- & Hitem).
      destruct (Hlist item Hitem) as (_ & _ & Hp & Hid & Hav).
      exact (Hun (productOf item) Hp Hid Hav). }
    split; [exact Hno|].
    intros ids Hin. apply Hno.
    apply in_map_iff in Hin. destruct Hin as (item & Heq & Hitem).
    apply in_map_iff. exists item. split; [assumption|].
    unfold validCartItems, selectCartItems in Hitem.
    apply filter_In in Hitem. tauto.
  - intros ids addr pi line Hin.
    destruct (validCartItems db userId ids) as [|v0 vs] eqn:Hv.
    + left. rewrite createOrderRoute_unfold in Hin. cbv zeta in Hin.
      rewrite Hv in Hin. exact Hin.
    + assert (Hne : validCartItems db userId ids <> [])
        by (rewrite Hv; discriminate).
      destruct (create_order_lines db userId ids addr pi Hne)
        as (oid & lines & Hitems & Hsnap).
      rewrite Hitems in Hin. apply in_app_or in Hin.
      destruct Hin as [Hold|Hnew]; [now left|right].
      destruct (Forall2_in_r _ _ _ _ Hsnap Hnew) as (item & Hitem & Hs).
      apply validCartItems_sound in Hitem. destruct Hitem as [Hok _].
      destruct Hok as (_ & Hp & _ & _ & _ & _ & Hav).
      destruct Hs as (_ & Hpid & _ & Hprice & _ & Hcarbon).
      exists (productOf item). repeat split; assumption.
Qed.

(** Row [d] of the example cart points at P3, which is unavailable: it is
    stored, it is not listed, and an order that lists it does not bill it. *)
Lemma cart_listing_only_available_witness :
  In (CartItem.mk "d" "u1" "P3" 1%Z) (cartItems (exampleDb 1 1))
  /\ unavailable (exampleDb 1 1) (CartItem.mk "d" "u1" "P3" 1%Z)
  /\ ~ In (CartItem.mk "d" "u1" "P3" 1%Z)
         (map CartItemWithProduct.row (fst (getCartItems "u1" (exampleDb 1 1))))
  /\ map OrderItem.productId
       (orderItems (snd (createOrderRoute "u1" ["a"; "d"] "addr" None
                           (exampleDb 1 1))))
     = ["P1"].
Proof.
  assert (Hin : In (CartItem.mk "d" "u1" "P3" 1%Z) (cartItems (exampleDb 1 1)))
    by (cbn; tauto).
  assert (Hun : unavailable (exampleDb 1 1) (CartItem.mk "d" "u1" "P3" 1%Z)).
  { intros p Hp Hid. cbn in Hp, Hid.
    destruct Hp as [<-|[<-|[<-|[]]]]; cbn in *; discriminate. }
  split; [exact Hin|]. split; [exact Hun|].
  destruct (cart_listing_only_available (exampleDb 1 1) "u1")
    as (_ & _ & Hout & _).
  split; [exact (proj1 (Hout _ Hin Hun))|reflexivity].
Defined.

(** ** Impact metrics *)

Lemma orZero_eq (x : Q) : ImpactMetrics.orZero x == x.
Proof.
  unfold ImpactMetrics.orZero. destruct (Qeq_bool x 0) eqn:Hx.
  - apply Qeq_bool_iff in Hx. now rewrite Hx.
  - reflexivity.
Qed.

Lemma fold_plus_sumQ {A} (f : A -> Q) (l : list A) :
  forall acc, fold_left (fun sum a => sum + f a) l acc == acc + sumQ (map f l).
Proof.
  induction l as [|a l IH]; intros acc; cbn [fold_left map sumQ fold_right].
  - ring.
  - rewrite IH. unfold sumQ. ring.
Qed.

(** C10. For every list of orders, with C the sum of the orders'
    [totalCarbonSaved], the page shows C as carbon saved, C / 22 as trees
    equivalent, C * 50 as water saved and C * 2.3 as energy saved. *)
Theorem impact_equivalents (os : list OrderWithItems.t) :
  ImpactMetrics.totalCarbonSaved (Some os) == sumQ (map orderCarbon os)
  /\ ImpactMetrics.treesEquivalent (Some os)
     == sumQ (map orderCarbon os) / 22
  /\ ImpactMetrics.waterSaved (Some os) == sumQ (map orderCarbon os) * 50
  /\ ImpactMetrics.energySaved (Some os)
     == sumQ (map orderCarbon os) * (23 # 10).
Proof.
  assert (HC : ImpactMetrics.totalCarbonSaved (Some os)
               == sumQ (map orderCarbon os)).
  { unfold ImpactMetrics.totalCarbonSaved. rewrite orZero_eq.
    unfold parseFloat.
    rewrite (fold_plus_sumQ orderCarbon os 0). ring. }
  unfold ImpactMetrics.treesEquivalent, ImpactMetrics.waterSaved,
    ImpactMetrics.energySaved.
  rewrite HC. repeat split; reflexivity.
Qed.

(** Two orders saving 8.25 and 13.75, and one whose column is null:
    C = 22, one tree, 1100 litres, 50.6 kWh. *)
Example impact_example :
  let o c := OrderWithItems.mk
               (Order.mk "o" "u1" 25 confirmed "addr" None c) [] in
  let os := Some [o (Some (33 # 4)); o None; o (Some (55 # 4))] in
  ImpactMetrics.totalCarbonSaved os == 22
  /\ ImpactMetrics.treesEquivalent os == 1
  /\ ImpactMetrics.waterSaved os == 1100
  /\ ImpactMetrics.energySaved os == 506 # 10.
Proof. cbv zeta. repeat split; vm_compute; reflexivity. Qed.

(** ** Two more runs of the example store *)

(** After the example order is placed the seller reprices P1 from 10 to 99:
    the order read back still totals 25 and its first line still says 10,
    next to a product that now says 99. *)
Example order_survives_price_change :
  let db1 := snd (createOrderRoute "u1" ["a"; "b"] "addr" None
                    (exampleDb 1 1)) in
  let reprice :=
    ProductUpdates.mk None None None (Some 99) None None None None None None
      None None None None None in
  let db2 := snd (updateProduct "P1" reprice db1) in
  option_map
    (fun o =>
       (Order.totalAmount (OrderWithItems.row o),
        map (fun i => (OrderItem.price (OrderWithItems.line i),
                       Product.price (OrderWithItems.product i)))
            (OrderWithItems.items o)))
    (fst (getOrder (gen_random_uuid 0) db2))
  = Some (25, [(10, 99); (5, 5)]).
Proof. vm_compute. reflexivity. Qed.

(** [upsertUser] is the one other writer of the users table; no route of
    [registerRoutes] calls it.  With the identity fields alone it keeps the
    counter of a known user, with a [totalCarbonSaved] key it overwrites
    it. *)
Example upsertUser_counter :
  let known := UpsertUser.mk (Some "u1") (Some "u1@example.org") None None
                 None None None None in
  let reset := UpsertUser.mk (Some "u1") None None None None None (Some 0)
                 None in
  map User.totalCarbonSaved (users (snd (upsertUser known (exampleDb 1 1))))
  = [0; 4; 0]
  /\ map User.totalCarbonSaved
       (users (snd (upsertUser reset (exampleDb 1 1))))
     = [0; 0; 0].
Proof. split; reflexivity. Qed.

(** * Further properties of the storage layer and the handlers *)

(** ** The grouping of the cart listing *)

Lemma mapHas_false_notin {V} (m : JsMap V) (k : Id) :
  mapHas m k = false -> ~ In k (map fst m).
Proof.
  unfold mapHas. intros Hhas Hin. apply in_map_iff in Hin.
  destruct Hin as (e & Hk & He).
  assert (Hex : existsb (fun e => String.eqb (fst e) k) m = true).
  { apply existsb_exists. exists e. split; [assumption|].
    apply String.eqb_eq. exact Hk. }
  congruence.
Qed.

Lemma mapHas_true_in {V} (m : JsMap V) (k : Id) :
  mapHas m k = true -> In k (map fst m).
Proof.
  unfold mapHas. intros Hhas. apply existsb_exists in Hhas.
  destruct Hhas as (e & He & Hk). apply String.eqb_eq in Hk.
  apply in_map_iff. exists e. split; assumption.
Qed.

Lemma mapSet_absent {V} (m : JsMap V) (k : Id) (v : V) :
  ~ In k (map fst m) -> mapSet m k v = (m ++ [(k, v)])%list.
Proof.
  induction m as [|[k' v'] m IH]; intros Hnin; cbn [mapSet app];
    [reflexivity|].
  destruct (String.eqb k' k) eqn:Hk.
  - apply String.eqb_eq in Hk. exfalso. apply Hnin. now left.
  - rewrite IH; [reflexivity|]. intros Hin. apply Hnin. now right.
Qed.

Lemma mapAdjust_keys {V} (m : JsMap V) (k : Id) (f : V -> V) :
  map fst (mapAdjust m k f) = map fst m.
Proof.
  unfold mapAdjust. rewrite map_map. apply map_ext.
  intros [k' v]. cbn [fst snd]. destruct (String.eqb k' k); reflexivity.
Qed.

Lemma pushReview_id (rv : Review.t) (i : CartItemWithProduct.t) :
  CartItemWithProduct.id (pushReview rv i) = CartItemWithProduct.id i.
Proof. reflexivity. Qed.

Lemma groupCartRow_keys (m : JsMap CartItemWithProduct.t) (row : CartRow) :
  NoDup (map fst m) -> keyedById m ->
  NoDup (map fst (groupCartRow m row))
  /\ keyedById (groupCartRow m row)
  /\ In (CartItem.id (fst (fst (fst row)))) (map fst (groupCartRow m row))
  /\ (forall k, In k (map fst m) -> In k (map fst (groupCartRow m row))).
Proof.
  intros Hnd Hkey. destruct row as [[[c p] u] r]. cbn [fst].
  unfold groupCartRow.
  set (m1 := if mapHas m (CartItem.id c) then m
             else mapSet m (CartItem.id c)
                    (CartItemWithProduct.mk c (ProductWithSeller.mk p u []))).
  assert (H1 : NoDup (map fst m1) /\ keyedById m1
               /\ In (CartItem.id c) (map fst m1)
               /\ (forall k, In k (map fst m) -> In k (map fst m1))).
  { unfold m1. destruct (mapHas m (CartItem.id c)) eqn:Hhas.
    - repeat split; auto. now apply mapHas_true_in.
    - apply mapHas_false_notin in Hhas.
      rewrite (mapSet_absent _ _ _ Hhas), map_app. cbn [map fst].
      repeat split.
      + apply NoDup_app; [assumption|repeat constructor; intros []|].
        intros k Hk [<-|[]]. contradiction.
      + apply Forall_app. split; [assumption|].
        constructor; [reflexivity|constructor].
      + apply in_or_app. right. now left.
      + intros k Hk. apply in_or_app. now left. }
  destruct H1 as (Hnd1 & Hkey1 & Hin1 & Hmono1).
  destruct r as [rv|]; [|repeat split; assumption].
  rewrite mapAdjust_keys. repeat split; try assumption.
  unfold keyedById, mapAdjust. apply Forall_map.
  eapply Forall_impl; [|exact Hkey1].
  intros [k v] Hk. cbn [fst snd] in *.
  destruct (String.eqb k (CartItem.id c)); cbn [fst snd]; assumption.
Qed.

Lemma groupCartRows_keys (rows : list CartRow) :
  forall m,
    NoDup (map fst m) -> keyedById m ->
    NoDup (map fst (fold_left groupCartRow rows m))
    /\ keyedById (fold_left groupCartRow rows m)
    /\ (forall row, In row rows ->
          In (CartItem.id (fst (fst (fst row))))
             (map fst (fold_left groupCartRow rows m)))
    /\ (forall k, In k (map fst m) ->
          In k (map fst (fold_left groupCartRow rows m))).
Proof.
  induction rows as [|row rows IH]; intros m Hnd Hkey; cbn [fold_left].
  - split; [assumption|]. split; [assumption|].
    split; [intros row []|intros k Hk; exact Hk].
  - destruct (groupCartRow_keys m row Hnd Hkey) as (Hnd1 & Hkey1 & Hin1 & Hmono1).
    destruct (IH _ Hnd1 Hkey1) as (Hnd2 & Hkey2 & Hin2 & Hmono2).
    repeat split; try assumption.
    + intros row' [<-|Hin]; [apply Hmono2; exact Hin1|now apply Hin2].
    + intros k Hk. apply Hmono2, Hmono1, Hk.
Qed.

Lemma listing_ids (db : Db) (userId : Id) :
  map CartItemWithProduct.id (fst (getCartItems userId db))
  = map fst (fold_left groupCartRow (cartRows db userId) []).
Proof.
  unfold getCartItems, query, mapValues. cbn [fst].
  destruct (groupCartRows_keys (cartRows db userId) [] (NoDup_nil _)
              (Forall_nil _)) as (_ & Hkey & _).
  rewrite map_map. apply map_ext_in. intros e He.
  unfold keyedById in Hkey. rewrite Forall_forall in Hkey.
  symmetry. now apply Hkey.
Qed.

(** X1. A cart listing never shows the same cart-item id twice, however
    many reviews the joined products have. *)
Theorem cart_listing_ids_distinct (db : Db) (userId : Id) :
  NoDup (map CartItemWithProduct.id (fst (getCartItems userId db))).
Proof.
  rewrite listing_ids.
  exact (proj1 (groupCartRows_keys (cartRows db userId) [] (NoDup_nil _)
                  (Forall_nil _))).
Qed.

Lemma cartRows_complete (db : Db) (userId : Id) (c : CartItem.t)
  (p : Product.t) (u : User.t) :
  cartRowOk db userId c p u ->
  exists r, In (c, p, u, r) (cartRows db userId).
Proof.
  intros (Hc & Hp & Hu & Hown & Hcp & Hpu & Hav).
  assert (Hj1 : In (c, p)
                  (innerJoin (cartItems db) (products db)
                     (fun c p => String.eqb (CartItem.productId c)
                                            (Product.id p)))).
  { apply in_innerJoin. repeat split; try assumption.
    now apply String.eqb_eq. }
  assert (Hj2 : In (c, p, u)
                  (innerJoin
                     (innerJoin (cartItems db) (products db)
                        (fun c p => String.eqb (CartItem.productId c)
                                               (Product.id p)))
                     (users db)
                     (fun cp u => String.eqb (Product.sellerId (snd cp))
                                             (User.id u)))).
  { apply in_innerJoin. repeat split; try assumption.
    cbn [snd]. now apply String.eqb_eq. }
  destruct (leftJoin_complete _ (reviews db)
              (fun cpu r => String.eqb (Product.id (snd (fst cpu)))
                                       (Review.productId r))
              _ Hj2) as (r & Hr).
  exists r. unfold cartRows. apply filter_In. split; [exact Hr|].
  apply andb_true_iff. split; [now apply String.eqb_eq|].
  rewrite Hav. reflexivity.
Qed.

Lemma listing_complete (db : Db) (userId : Id) (c : CartItem.t)
  (p : Product.t) (u : User.t) :
  cartRowOk db userId c p u ->
  In (CartItem.id c) (map CartItemWithProduct.id (fst (getCartItems userId db))).
Proof.
  intros Hok. destruct (cartRows_complete db userId c p u Hok) as (r & Hr).
  rewrite listing_ids.
  destruct (groupCartRows_keys (cartRows db userId) [] (NoDup_nil _)
              (Forall_nil _)) as (_ & _ & Hin & _).
  exact (Hin _ Hr).
Qed.

(** X2. A stored cart row of the user whose product is stored and
    available, with the product's seller a stored user, is in the user's
    cart listing. *)
Theorem cart_listing_complete (db : Db) (userId : Id) (c : CartItem.t)
  (p : Product.t) (u : User.t) :
  In c (cartItems db) -> CartItem.userId c = userId ->
  In p (products db) -> CartItem.productId c = Product.id p ->
  Product.available p = Some true ->
  In u (users db) -> Product.sellerId p = User.id u ->
  exists item,
    In item (fst (getCartItems userId db))
    /\ CartItemWithProduct.id item = CartItem.id c.
Proof.
  intros Hc Hown Hp Hcp Hav Hu Hpu.
  assert (Hok : cartRowOk db userId c p u)
    by (unfold cartRowOk; repeat split; assumption).
  apply listing_complete in Hok. apply in_map_iff in Hok.
  destruct Hok as (item & Hid & Hin). exists item. split; assumption.
Qed.

Lemma cart_listing_complete_witness :
  exists item,
    In item (fst (getCartItems "u1" (exampleDb 1 1)))
    /\ CartItemWithProduct.id item = "b".
Proof.
  apply (cart_listing_complete (exampleDb 1 1) "u1"
           (CartItem.mk "b" "u1" "P2" 1%Z) (someProduct "P2" 5 1 true)
           (someUser "s1" 0)); cbn; auto.
Defined.

(** ** A listing depends on the user's own cart rows only *)

Lemma innerJoin_app {A B} (l1 l2 : list A) (r : list B)
  (on : A -> B -> bool) :
  innerJoin (l1 ++ l2) r on = (innerJoin l1 r on ++ innerJoin l2 r on)%list.
Proof. unfold innerJoin. apply flat_map_app. Qed.

Lemma leftJoin_app {A B} (l1 l2 : list A) (r : list B)
  (on : A -> B -> bool) :
  leftJoin (l1 ++ l2) r on = (leftJoin l1 r on ++ leftJoin l2 r on)%list.
Proof. unfold leftJoin. apply flat_map_app. Qed.

Lemma cartJoin_app (db : Db) (l1 l2 : list CartItem.t) :
  cartJoin db (l1 ++ l2) = (cartJoin db l1 ++ cartJoin db l2)%list.
Proof.
  unfold cartJoin. now rewrite !innerJoin_app, leftJoin_app.
Qed.

Lemma cartJoin_row (db : Db) (rows : list CartItem.t) (row : CartRow) :
  In row (cartJoin db rows) -> In (fst (fst (fst row))) rows.
Proof.
  destruct row as [[[c p] u] r]. unfold cartJoin. intros Hin.
  apply in_leftJoin in Hin. destruct Hin as [Hin _].
  apply in_innerJoin in Hin. destruct Hin as (Hin & _).
  apply in_innerJoin in Hin. tauto.
Qed.

Lemma cartRows_cartJoin (db : Db) (userId : Id) :
  cartRows db userId = filter (cartWhere userId) (cartJoin db (cartItems db)).
Proof. reflexivity. Qed.

Lemma filter_nil_iff {A} (q : A -> bool) (l : list A) :
  (forall a, In a l -> q a = false) -> filter q l = [].
Proof.
  induction l as [|a l IH]; intros Hq; cbn [filter]; [reflexivity|].
  rewrite (Hq a (or_introl eq_refl)). apply IH.
  intros b Hb. apply Hq. now right.
Qed.

Lemma cartJoin_ownRows (db : Db) (userId : Id) (rows : list CartItem.t) :
  filter (cartWhere userId) (cartJoin db rows)
  = filter (cartWhere userId) (cartJoin db (ownRows userId rows)).
Proof.
  induction rows as [|c rows IH]; [reflexivity|].
  change (c :: rows) with ([c] ++ rows)%list.
  rewrite cartJoin_app, filter_app, IH.
  unfold ownRows at 2. cbn [app filter].
  destruct (String.eqb (CartItem.userId c) userId) eqn:Hown.
  - change (c :: filter _ rows) with ([c] ++ ownRows userId rows)%list.
    now rewrite cartJoin_app, filter_app.
  - rewrite filter_nil_iff; [reflexivity|].
    intros [[[c' p] u] r] Hin. apply cartJoin_row in Hin.
    cbn [fst] in Hin. destruct Hin as [Heq|[]]. subst c'.
    cbn [cartWhere]. now rewrite Hown.
Qed.

Lemma listing_own_rows (db1 db2 : Db) (userId : Id) :
  products db1 = products db2 -> users db1 = users db2 ->
  reviews db1 = reviews db2 ->
  ownRows userId (cartItems db1) = ownRows userId (cartItems db2) ->
  fst (getCartItems userId db1) = fst (getCartItems userId db2).
Proof.
  intros Hp Hu Hr Hown.
  unfold getCartItems, query. cbn [fst]. f_equal. f_equal.
  rewrite !cartRows_cartJoin, (cartJoin_ownRows db1), (cartJoin_ownRows db2).
  rewrite Hown. unfold cartJoin. now rewrite Hp, Hu, Hr.
Qed.

(** X3. Two stores with the same products, users and reviews, and the
    same cart rows for a user, give that user the same cart listing: what
    other users put in, change in or clear from their carts does not show. *)
Theorem cart_listing_own_rows (db1 db2 : Db) (userId : Id) :
  products db1 = products db2 -> users db1 = users db2 ->
  reviews db1 = reviews db2 ->
  ownRows userId (cartItems db1) = ownRows userId (cartItems db2) ->
  fst (getCartItems userId db1) = fst (getCartItems userId db2).
Proof. exact (listing_own_rows db1 db2 userId). Qed.

(** Clearing the cart of [u2] and adding a row to it leave the listing of
    [u1] as it was. *)
Lemma cart_listing_own_rows_witness :
  let db2 := snd (bind (clearCart "u2")
                    (fun _ => addToCart (InsertCartItem.mk "u2" "P2" 3%Z))
                    (exampleDb 1 1)) in
  ownRows "u1" (cartItems (exampleDb 1 1)) = ownRows "u1" (cartItems db2)
  /\ fst (getCartItems "u1" (exampleDb 1 1)) = fst (getCartItems "u1" db2).
Proof.
  cbv zeta. split; [reflexivity|].
  apply cart_listing_own_rows; reflexivity.
Defined.

(** ** The cart routes *)



Lemma filter_idem {A} (q : A -> bool) (l : list A) :
  filter q (filter q l) = filter q l.
Proof.
  induction l as [|a l IH]; cbn [filter]; [reflexivity|].
  destruct (q a) eqn:Hq; cbn [filter]; [rewrite Hq; now f_equal|exact IH].
Qed.

Lemma filter_all {A} (q : A -> bool) (l : list A) :
  (forall a, In a l -> q a = true) -> filter q l = l.
Proof.
  induction l as [|a l IH]; intros Hq; cbn [filter]; [reflexivity|].
  rewrite (Hq a (or_introl eq_refl)). f_equal. apply IH.
  intros b Hb. apply Hq. now right.
Qed.

Lemma set_cartItems_same (db : Db) : set_cartItems db (cartItems db) = db.
Proof. destruct db; reflexivity. Qed.

(** X5. [DELETE /api/cart/:id] answers 204 whether or not a row has the
    id and whoever owns it; afterwards exactly the rows with another id are
    left, a second delete of the same id changes nothing more, and a delete
    of an id no row has changes nothing at all. *)
Theorem delete_cart_by_id (db : Db) (id : Id) :
  fst (deleteCartRoute id db) = mkResponse 204 JUndefined
  /\ (forall c, In c (cartItems (snd (deleteCartRoute id db)))
                <-> In c (cartItems db) /\ CartItem.id c <> id)
  /\ deleteCartRoute id (snd (deleteCartRoute id db))
     = (mkResponse 204 JUndefined, snd (deleteCartRoute id db))
  /\ ((forall c, In c (cartItems db) -> CartItem.id c <> id) ->
      snd (deleteCartRoute id db) = db).
Proof.
  assert (Hdb : snd (deleteCartRoute id db)
                = set_cartItems db
                    (filter (fun c => negb (String.eqb (CartItem.id c) id))
                            (cartItems db))) by reflexivity.
  split; [reflexivity|]. split; [|split].
  - intros c. rewrite Hdb. cbn [cartItems set_cartItems].
    rewrite filter_In, negb_true_iff. split; intros [Hin Hne]; split;
      try assumption.
    + intros Heq. apply String.eqb_eq in Heq. congruence.
    + destruct (String.eqb (CartItem.id c) id) eqn:Heq; [|reflexivity].
      apply String.eqb_eq in Heq. contradiction.
  - rewrite Hdb. unfold deleteCartRoute, bind, removeFromCart, execute, ret.
    cbn [cartItems set_cartItems]. rewrite filter_idem. reflexivity.
  - intros Hnone. rewrite Hdb, filter_all; [apply set_cartItems_same|].
    intros c Hc. apply negb_true_iff.
    destruct (String.eqb (CartItem.id c) id) eqn:Heq; [|reflexivity].
    apply String.eqb_eq in Heq. exfalso. exact (Hnone c Hc Heq).
Qed.

Lemma map_unchanged {A} (f : A -> A) (l : list A) :
  (forall a, In a l -> f a = a) -> map f l = l.
Proof.
  induction l as [|a l IH]; intros Hf; cbn [map]; [reflexivity|].
  rewrite (Hf a (or_introl eq_refl)). f_equal. apply IH.
  intros b Hb. apply Hf. now right.
Qed.

Lemma find_absent {A} (q : A -> bool) (l : list A) :
  (forall a, In a l -> q a = false) -> find q l = None.
Proof.
  induction l as [|a l IH]; intros Hq; cbn [find]; [reflexivity|].
  rewrite (Hq a (or_introl eq_refl)). apply IH.
  intros b Hb. apply Hq. now right.
Qed.

Lemma find_present {A} (q : A -> bool) (l : list A) (a : A) :
  In a l -> q a = true -> exists b, find q l = Some b.
Proof.
  intros Hin Hq. destruct (find q l) as [b|] eqn:Hf; [now exists b|].
  pose proof (find_none _ _ Hf a Hin). congruence.
Qed.



(** X7. After [clearCart] the user's cart listing is empty, and every
    other user's cart rows and cart listing are what they were. *)
Theorem clear_cart_empties_one_listing (db : Db) (userId other : Id) :
  other <> userId ->
  fst (getCartItems userId (snd (clearCart userId db))) = []
  /\ ownRows other (cartItems (snd (clearCart userId db)))
     = ownRows other (cartItems db)
  /\ fst (getCartItems other (snd (clearCart userId db)))
     = fst (getCartItems other db).
Proof.
  intros Hne.
  assert (Hown : ownRows other (cartItems (snd (clearCart userId db)))
                 = ownRows other (cartItems db)).
  { cbn. unfold ownRows.
    induction (cartItems db) as [|c l IH]; cbn [filter]; [reflexivity|].
    destruct (String.eqb (CartItem.userId c) userId) eqn:Hu; cbn [negb filter].
    - apply String.eqb_eq in Hu.
      replace (String.eqb (CartItem.userId c) other) with false; [exact IH|].
      symmetry. apply String.eqb_neq. congruence.
    - destruct (String.eqb (CartItem.userId c) other); [now f_equal|exact IH]. }
  split; [|split; [exact Hown|]].
  - destruct (fst (getCartItems userId (snd (clearCart userId db))))
      as [|i l] eqn:Hl; [reflexivity|].
    assert (Hin : In i (fst (getCartItems userId (snd (clearCart userId db)))))
      by (rewrite Hl; now left).
    apply getCartItems_sound in Hin. destruct Hin as (Hrow & _ & _ & Hu & _).
    cbn in Hrow. apply filter_In in Hrow. destruct Hrow as [_ Hneg].
    rewrite Hu, String.eqb_refl in Hneg. discriminate.
  - apply listing_own_rows; try reflexivity. exact Hown.
Qed.

Lemma clear_cart_empties_one_listing_witness :
  fst (getCartItems "u1" (snd (clearCart "u1" (exampleDb 1 1)))) = []
  /\ map CartItemWithProduct.id
       (fst (getCartItems "u2" (snd (clearCart "u1" (exampleDb 1 1)))))
     = ["c"].
Proof.
  destruct (clear_cart_empties_one_listing (exampleDb 1 1) "u1" "u2")
    as (Hempty & _ & Hother); [discriminate|].
  split; [exact Hempty|]. rewrite Hother. reflexivity.
Defined.

(** ** After an order is placed *)

Lemma includes_In (ids : list Id) (x : Id) :
  includes ids x = true <-> In x ids.
Proof.
  unfold includes. rewrite existsb_exists. split.
  - intros (y & Hy & Heq). apply String.eqb_eq in Heq. now subst.
  - intros Hin. exists x. split; [assumption|apply String.eqb_refl].
Qed.

Lemma placed_listing_excludes (db : Db) (userId : Id) (ids : list Id)
  (addr : string) (pi : option string) :
  validCartItems db userId ids <> [] ->
  forall other item,
    In item (fst (getCartItems other
                    (snd (createOrderRoute userId ids addr pi db)))) ->
    ~ In (CartItemWithProduct.id item) ids.
Proof.
  intros Hne other item Hin Hid.
  destruct (createOrderRoute_placed db userId ids addr pi Hne)
    as (ta & tc & _ & _ & _ & _ & _ & _ & Hcart & _).
  apply getCartItems_sound in Hin. destruct Hin as (Hrow & _).
  rewrite Hcart in Hrow. apply filter_In in Hrow. destruct Hrow as [_ Hneg].
  apply negb_true_iff in Hneg. apply includes_In in Hid.
  unfold CartItemWithProduct.id in Hid. congruence.
Qed.

(** X8. After a placed order no cart listing, of the buyer or of anyone
    else, shows a cart item whose id was in the request. *)
Theorem placed_order_ids_leave_listings (db : Db) (userId other : Id)
  (ids : list Id) (addr : string) (pi : option string) :
  validCartItems db userId ids <> [] ->
  Forall (fun item => ~ In (CartItemWithProduct.id item) ids)
    (fst (getCartItems other (snd (createOrderRoute userId ids addr pi db)))).
Proof.
  intros Hne. apply Forall_forall. intros item Hin.
  exact (placed_listing_excludes db userId ids addr pi Hne other item Hin).
Qed.

Lemma placed_order_ids_leave_listings_witness :
  validCartItems (exampleDb 1 1) "u1" ["a"; "c"] <> []
  /\ Forall (fun item => ~ In (CartItemWithProduct.id item) ["a"; "c"])
       (fst (getCartItems "u2"
               (snd (createOrderRoute "u1" ["a"; "c"] "addr" None
                       (exampleDb 1 1))))).
Proof.
  assert (Hne : validCartItems (exampleDb 1 1) "u1" ["a"; "c"] <> [])
    by (vm_compute; discriminate).
  split; [exact Hne|].
  exact (placed_order_ids_leave_listings (exampleDb 1 1) "u1" "u2"
           ["a"; "c"] "addr" None Hne).
Defined.

(** X9. Sending the same create-order request again after it was placed,
    whatever address and payment id it carries, is answered 400 and writes
    nothing: the rows it would bill are gone. *)
Theorem create_order_resubmitted (db : Db) (userId : Id) (ids : list Id)
  (addr addr' : string) (pi pi' : option string) :
  validCartItems db userId ids <> [] ->
  createOrderRoute userId ids addr' pi'
    (snd (createOrderRoute userId ids addr pi db))
  = (mkResponse 400 (JMessage "No valid cart items found"),
     snd (createOrderRoute userId ids addr pi db)).
Proof.
  intros Hne.
  set (db' := snd (createOrderRoute userId ids addr pi db)).
  assert (Hv : validCartItems db' userId ids = []).
  { destruct (validCartItems db' userId ids) as [|i l] eqn:Hv; [reflexivity|].
    assert (Hin : In i (validCartItems db' userId ids))
      by (rewrite Hv; now left).
    unfold validCartItems, selectCartItems in Hin.
    apply filter_In in Hin. destruct Hin as [Hin Hsel].
    apply includes_In in Hsel.
    exfalso.
    exact (placed_listing_excludes db userId ids addr pi Hne userId i Hin Hsel). }
  rewrite createOrderRoute_unfold. cbv zeta. rewrite Hv. reflexivity.
Qed.

Lemma create_order_resubmitted_witness :
  validCartItems (exampleDb 1 1) "u1" ["a"; "b"] <> []
  /\ status
       (fst (createOrderRoute "u1" ["a"; "b"] "addr" (Some "pi_1")
               (snd (createOrderRoute "u1" ["a"; "b"] "addr" (Some "pi_1")
                       (exampleDb 1 1)))))
     = 400%nat.
Proof.
  assert (Hne : validCartItems (exampleDb 1 1) "u1" ["a"; "b"] <> [])
    by (vm_compute; discriminate).
  split; [exact Hne|].
  rewrite (create_order_resubmitted (exampleDb 1 1) "u1" ["a"; "b"]
             "addr" "addr" (Some "pi_1") (Some "pi_1") Hne).
  reflexivity.
Defined.







(** ** What the REST surface never does to products and orders *)

Lemma sameButViews_refl (ps : list Product.t) : Forall2 sameButViews ps ps.
Proof.
  induction ps as [|p ps IH]; constructor; [|exact IH].
  destruct p; reflexivity.
Qed.

Lemma sameButViews_trans (l1 l2 : list Product.t) :
  Forall2 sameButViews l1 l2 ->
  forall l3, Forall2 sameButViews l2 l3 -> Forall2 sameButViews l1 l3.
Proof.
  induction 1 as [|p q l1 l2 Hpq _ IH]; intros l3 H23;
    inversion H23 as [|q' r l2' l3' Hqr Hrest]; subst; constructor.
  - unfold sameButViews in *. rewrite Hqr, Hpq. reflexivity.
  - now apply IH.
Qed.

Lemma handle_products (stripe : option Stripe.Client) (w : World)
  (r : Request) :
  exists front extra,
    products (db (snd (handle stripe w r))) = (front ++ extra)%list
    /\ Forall2 sameButViews (products (db w)) front.
Proof.
  assert (Hsame : forall d : Db,
            products d = products (db w) ->
            exists front extra,
              products d = (front ++ extra)%list
              /\ Forall2 sameButViews (products (db w)) front).
  { intros d Hd. exists (products (db w)), []. rewrite app_nil_r.
    split; [assumption|apply sameButViews_refl]. }
  destruct r; unfold handle, onStore; try (apply Hsame; reflexivity).
  - rewrite getProductRoute_unfold.
    destruct (fst (getProduct id (db w))); [|apply Hsame; reflexivity].
    cbn [snd db products set_products].
    eexists. exists []. rewrite app_nil_r. split; [reflexivity|].
    clear Hsame.
    induction (products (db w)) as [|q l IH]; cbn [map]; constructor;
      [|exact IH].
    destruct (String.eqb (Product.id q) id); destruct q; reflexivity.
  - destruct parsed as [b|]; [|apply Hsame; reflexivity].
    cbn. eexists. eexists. split; [reflexivity|apply sameButViews_refl].
  - destruct parsed; apply Hsame; reflexivity.
  - unfold getOrderRoute, bind.
    destruct (getOrder id (db w)) as [[o|] db'] eqn:Hg;
      unfold getOrder, query in Hg; inversion Hg; apply Hsame; reflexivity.
  - destruct (createPaymentIntentRoute stripe userId amount cartItemIds).
    apply Hsame; reflexivity.
  - apply Hsame.
    destruct (validCartItems (db w) userId cartItemIds) as [|v0 vs] eqn:Hv.
    + rewrite createOrderRoute_unfold. cbv zeta. rewrite Hv. reflexivity.
    + assert (Hne : validCartItems (db w) userId cartItemIds <> [])
        by (rewrite Hv; discriminate).
      destruct (createOrderRoute_placed (db w) userId cartItemIds
                  shippingAddress paymentIntentId Hne)
        as (ta & tc & _ & _ & _ & _ & _ & _ & _ & Hp & _).
      destruct (createOrderRoute userId cartItemIds shippingAddress
                  paymentIntentId (db w)).
      exact Hp.
Qed.

(** X12. Over any sequence of requests to the REST surface, a product
    stored at the start stays stored, in the same place and with every
    column but [views] as it was: no request changes a price or an
    availability, none deletes a product, and new products come after the
    old ones.  In particular a placed order leaves the products it bought
    available. *)
Theorem products_only_gain_views (stripe : option Stripe.Client)
  (w : World) (reqs : list Request) :
  exists front extra,
    products (db (run stripe w reqs)) = (front ++ extra)%list
    /\ Forall2 sameButViews (products (db w)) front.
Proof.
  revert w. induction reqs as [|r rs IH]; intros w; cbn [run].
  - exists (products (db w)), []. rewrite app_nil_r.
    split; [reflexivity|apply sameButViews_refl].
  - destruct (handle_products stripe w r) as (f1 & e1 & H1 & HF1).
    destruct (IH (snd (handle stripe w r))) as (f2 & e2 & H2 & HF2).
    rewrite H1 in HF2. apply Forall2_app_inv_l in HF2.
    destruct HF2 as (f2a & f2b & Ha & Hb & ->).
    exists f2a, (f2b ++ e2)%list. rewrite H2, app_assoc.
    split; [reflexivity|].
    exact (sameButViews_trans _ _ HF1 _ Ha).
Qed.

Lemma handle_orders (stripe : option Stripe.Client) (w : World) (r : Request) :
  exists newOrders newItems,
    orders (db (snd (handle stripe w r))) = (orders (db w) ++ newOrders)%list
    /\ orderItems (db (snd (handle stripe w r)))
       = (orderItems (db w) ++ newItems)%list
    /\ Forall (fun o => Order.status o = confirmed) newOrders.
Proof.
  assert (Hsame : forall d : Db,
            orders d = orders (db w) /\ orderItems d = orderItems (db w) ->
            exists newOrders newItems,
              orders d = (orders (db w) ++ newOrders)%list
              /\ orderItems d = (orderItems (db w) ++ newItems)%list
              /\ Forall (fun o => Order.status o = confirmed) newOrders).
  { intros d [Ho Hi]. exists [], []. rewrite !app_nil_r.
    repeat split; try assumption. constructor. }
  destruct r; unfold handle, onStore;
    try (apply Hsame; split; reflexivity).
  - rewrite getProductRoute_unfold.
    destruct (fst (getProduct id (db w))); apply Hsame; split; reflexivity.
  - destruct parsed; apply Hsame; split; reflexivity.
  - destruct parsed; apply Hsame; split; reflexivity.
  - unfold getOrderRoute, bind.
    destruct (getOrder id (db w)) as [[o|] db'] eqn:Hg;
      unfold getOrder, query in Hg; inversion Hg; apply Hsame;
      split; reflexivity.
  - destruct (createPaymentIntentRoute stripe userId amount cartItemIds).
    apply Hsame; split; reflexivity.
  - destruct (validCartItems (db w) userId cartItemIds) as [|v0 vs] eqn:Hv.
    + apply Hsame. rewrite createOrderRoute_unfold. cbv zeta. rewrite Hv.
      split; reflexivity.
    + assert (Hne : validCartItems (db w) userId cartItemIds <> [])
        by (rewrite Hv; discriminate).
      destruct (createOrderRoute_placed (db w) userId cartItemIds
                  shippingAddress paymentIntentId Hne)
        as (ta & tc & _ & _ & _ & Ho & Hi & _).
      destruct (createOrderRoute userId cartItemIds shippingAddress
                  paymentIntentId (db w)).
      cbn [snd db] in *. eexists. eexists.
      split; [exact Ho|]. split; [exact Hi|].
      constructor; [reflexivity|constructor].
Qed.

(** X13. Over any sequence of requests to the REST surface the orders and
    order-items tables only grow at the end: no request edits or deletes an
    order or an order item, and every order added has status confirmed. *)
Theorem orders_are_append_only (stripe : option Stripe.Client)
  (w : World) (reqs : list Request) :
  exists newOrders newItems,
    orders (db (run stripe w reqs)) = (orders (db w) ++ newOrders)%list
    /\ orderItems (db (run stripe w reqs))
       = (orderItems (db w) ++ newItems)%list
    /\ Forall (fun o => Order.status o = confirmed) newOrders.
Proof.
  revert w. induction reqs as [|r rs IH]; intros w; cbn [run].
  - exists [], []. rewrite !app_nil_r. repeat split; constructor.
  - destruct (handle_orders stripe w r) as (o1 & i1 & Ho1 & Hi1 & Hc1).
    destruct (IH (snd (handle stripe w r))) as (o2 & i2 & Ho2 & Hi2 & Hc2).
    exists (o1 ++ o2)%list, (i1 ++ i2)%list.
    rewrite Ho2, Hi2, Ho1, Hi1, <- !app_assoc.
    repeat split. apply Forall_app. split; assumption.
Qed.

(** ** Products and reviews: what [getProduct] returns *)

Lemma in_leftJoin_Some {A B} (l : list A) (r : list B)
  (on : A -> B -> bool) (a : A) (b : B) :
  In a l -> In b r -> on a b = true -> In (a, Some b) (leftJoin l r on).
Proof.
  intros Ha Hb Hon. unfold leftJoin. apply in_flat_map.
  exists a. split; [assumption|].
  assert (Hf : In b (filter (on a) r)) by (apply filter_In; tauto).
  destruct (filter (on a) r) as [|b0 m]; [contradiction|].
  apply in_map_iff. exists b. split; [reflexivity|assumption].
Qed.

Lemma in_keepReviews {A} (rows : list (A * option Review.t))
  (rv : Review.t) :
  In rv (keepReviews rows) <-> exists a, In (a, Some rv) rows.
Proof.
  unfold keepReviews. rewrite in_flat_map. split.
  - intros ([a [rv'|]] & Hin & Hrv); cbn in Hrv; [|contradiction].
    destruct Hrv as [<-|[]]. now exists a.
  - intros (a & Hin). exists (a, Some rv). split; [assumption|now left].
Qed.

Lemma getProduct_Some (db : Db) (id : Id) (found : ProductWithSeller.t) :
  fst (getProduct id db) = Some found ->
  In (ProductWithSeller.row found) (products db)
  /\ Product.id (ProductWithSeller.row found) = id
  /\ In (ProductWithSeller.seller found) (users db)
  /\ User.id (ProductWithSeller.seller found)
     = Product.sellerId (ProductWithSeller.row found)
  /\ forall rv, In rv (ProductWithSeller.reviews found)
                <-> In rv (reviews db) /\ Review.productId rv = id.
Proof.
  unfold getProduct, query. cbn [fst].
  set (result := filter (fun r => String.eqb (Product.id (fst (fst r))) id)
                   (productRows db)).
  assert (Hres : forall p u r, In (p, u, r) result ->
            In (p, u)
               (innerJoin (products db) (users db)
                  (fun p u => String.eqb (Product.sellerId p) (User.id u)))
            /\ Product.id p = id
            /\ match r with
               | Some rv => In rv (reviews db) /\ Review.productId rv = id
               | None => True
               end).
  { intros p u r Hin. apply filter_In in Hin. destruct Hin as [Hrow Hid].
    cbn [fst] in Hid. apply String.eqb_eq in Hid.
    apply in_leftJoin in Hrow. destruct Hrow as [Hpu Hr].
    split; [assumption|]. split; [assumption|].
    destruct r as [rv|]; [|exact I]. destruct Hr as [Hrv Hon].
    cbn [fst] in Hon. apply String.eqb_eq in Hon. split; congruence. }
  destruct result as [|[[p0 u0] r0] rest] eqn:Hresult; [discriminate|].
  intros Hsome. inversion Hsome; subst found; clear Hsome.
  cbn [ProductWithSeller.row ProductWithSeller.seller
         ProductWithSeller.reviews fst snd].
  destruct (Hres p0 u0 r0 (or_introl eq_refl)) as (Hpu0 & Hid0 & _).
  apply in_innerJoin in Hpu0. destruct Hpu0 as (Hp0 & Hu0 & Hon0).
  apply String.eqb_eq in Hon0.
  split; [assumption|]. split; [assumption|]. split; [assumption|].
  split; [now symmetry|].
  intros rv.
  change (match r0 with Some rv0 => [rv0] | None => [] end
          ++ keepReviews rest)%list
    with (keepReviews ((p0, u0, r0) :: rest)).
  rewrite in_keepReviews. split.
  - intros ([p u] & Hin). exact (proj2 (proj2 (Hres p u (Some rv) Hin))).
  - intros [Hrv Hpid]. exists (p0, u0). rewrite <- Hresult. unfold result.
    apply filter_In. split; [|cbn [fst]; now apply String.eqb_eq].
    apply in_leftJoin_Some.
    + apply in_innerJoin. repeat split; try assumption.
      now apply String.eqb_eq.
    + assumption.
    + cbn [fst]. apply String.eqb_eq. congruence.
Qed.

(** X14. What [getProduct] returns for an id is a stored product with that
    id, joined with a stored user who is its seller, and carrying exactly
    the stored reviews written for that product id. *)
Theorem get_product_returns_stored (db : Db) (id : Id)
  (found : ProductWithSeller.t) :
  fst (getProduct id db) = Some found ->
  In (ProductWithSeller.row found) (products db)
  /\ Product.id (ProductWithSeller.row found) = id
  /\ In (ProductWithSeller.seller found) (users db)
  /\ User.id (ProductWithSeller.seller found)
     = Product.sellerId (ProductWithSeller.row found)
  /\ forall rv, In rv (ProductWithSeller.reviews found)
                <-> In rv (reviews db) /\ Review.productId rv = id.
Proof. exact (getProduct_Some db id found). Qed.

Lemma get_product_returns_stored_witness :
  exists found,
    fst (getProduct "P1" (exampleDb 1 1)) = Some found
    /\ map Review.id (ProductWithSeller.reviews found) = ["r1"; "r2"]
    /\ forall rv, In rv (ProductWithSeller.reviews found)
                  <-> In rv (reviews (exampleDb 1 1))
                      /\ Review.productId rv = "P1".
Proof.
  eexists. split; [reflexivity|]. split; [reflexivity|].
  exact (proj2 (proj2 (proj2 (proj2
           (get_product_returns_stored (exampleDb 1 1) "P1" _ eq_refl))))).
Defined.



(** X16. [POST /api/products/:id/reviews] with a body the schema rejects
    answers 400 and writes nothing.  With an accepted body, for a stored
    product whose seller is stored, it answers 201 and appends one review
    filed under the product of the URL and the session's user, whatever
    the body names; [getProduct] of that id then returns the product with
    the new review among its reviews. *)
Theorem post_review_files_under_url_and_session (db : Db) (userId id : Id)
  (body : InsertReview.t) (p : Product.t) (u : User.t) :
  In p (products db) -> Product.id p = id ->
  In u (users db) -> User.id u = Product.sellerId p ->
  postReviewRoute userId id None db
  = (mkResponse 400 (JMessage "Invalid review data"), db)
  /\ exists rv found,
       fst (postReviewRoute userId id (Some body) db)
       = mkResponse 201 (JNewReview rv)
       /\ reviews (snd (postReviewRoute userId id (Some body) db))
          = (reviews db ++ [rv])%list
       /\ Review.productId rv = id
       /\ Review.buyerId rv = userId
       /\ Review.rating rv = InsertReview.rating body
       /\ fst (getProduct id (snd (postReviewRoute userId id (Some body) db)))
          = Some found
       /\ In rv (ProductWithSeller.reviews found).
Proof.
  intros Hp Hid Hu Hpu. split; [reflexivity|].
  set (db' := snd (postReviewRoute userId id (Some body) db)).
  set (rv := Review.mk (gen_random_uuid (uuidCounter db)) id userId
               (InsertReview.rating body) (InsertReview.comment body)).
  assert (Hrev : reviews db' = (reviews db ++ [rv])%list) by reflexivity.
  destruct (getProduct_found db' id p u) as (found & Hfound);
    try assumption.
  exists rv, found.
  split; [reflexivity|]. split; [exact Hrev|]. split; [reflexivity|].
  split; [reflexivity|]. split; [reflexivity|]. split; [exact Hfound|].
  apply getProduct_Some in Hfound.
  destruct Hfound as (_ & _ & _ & _ & Hreviews).
  apply Hreviews. split; [|reflexivity].
  rewrite Hrev. apply in_or_app. right. now left.
Qed.

Lemma post_review_files_under_url_and_session_witness :
  exists rv found,
    fst (postReviewRoute "u1" "P2"
           (Some (InsertReview.mk "P1" "u2" 5%Z None)) (exampleDb 1 1))
    = mkResponse 201 (JNewReview rv)
    /\ Review.productId rv = "P2" /\ Review.buyerId rv = "u1"
    /\ fst (getProduct "P2"
              (snd (postReviewRoute "u1" "P2"
                      (Some (InsertReview.mk "P1" "u2" 5%Z None))
                      (exampleDb 1 1))))
       = Some found
    /\ In rv (ProductWithSeller.reviews found).
Proof.
  assert (Hp : In (someProduct "P2" 5 1 true) (products (exampleDb 1 1)))
    by (cbn; auto).
  assert (Hu : In (someUser "s1" 0) (users (exampleDb 1 1)))
    by (cbn; auto).
  destruct (post_review_files_under_url_and_session (exampleDb 1 1) "u1" "P2"
              (InsertReview.mk "P1" "u2" 5%Z None)
              (someProduct "P2" 5 1 true) (someUser "s1" 0)
              Hp eq_refl Hu eq_refl)
    as (_ & rv & found & Hres & _ & Hpid & Hb & _ & Hfound & Hin).
  exists rv, found. repeat split; assumption.
Defined.

(** ** Users: [upsertUser] and [getUser] *)

Lemma upsertUser_given (userData : UpsertUser.t) (id : Id) (db : Db) :
  UpsertUser.id userData = Some id ->
  let existing := find (fun u => String.eqb (User.id u) id) (users db) in
  let user := upsertedRow userData id existing in
  upsertUser userData db
  = (user, set_users db (upsertedUsers id existing user (users db))).
Proof.
  intros Hid. cbv zeta. unfold upsertUser. rewrite Hid.
  unfold bind, ret, getUser, query, execute, upsertedRow, upsertedUsers.
  destruct (find _ (users db)); reflexivity.
Qed.

Lemma find_last {A} (q : A -> bool) (l : list A) (a : A) :
  find q l = None -> q a = true -> find q (l ++ [a]) = Some a.
Proof.
  induction l as [|b l IH]; cbn [find app]; intros Hnone Hq.
  - now rewrite Hq.
  - destruct (q b); [discriminate|]. now apply IH.
Qed.

Lemma find_replaced (id : Id) (user : User.t) (us : list User.t)
  (u0 : User.t) :
  User.id user = id ->
  find (fun u => String.eqb (User.id u) id) us = Some u0 ->
  find (fun u => String.eqb (User.id u) id)
       (map (fun u => if String.eqb (User.id u) id then user else u) us)
  = Some user.
Proof.
  intros Hid. induction us as [|a us IH]; cbn [find map]; [discriminate|].
  destruct (String.eqb (User.id a) id) eqn:Ha.
  - intros _. now rewrite Hid, String.eqb_refl.
  - rewrite Ha. exact IH.
Qed.

Lemma upsertedRow_id (userData : UpsertUser.t) (id : Id)
  (existing : option User.t) :
  User.id (upsertedRow userData id existing) = id.
Proof. destruct existing; reflexivity. Qed.

Lemma orElse_idem {A} (d o : option A) : orElse d (orElse d o) = orElse d o.
Proof. destruct d; reflexivity. Qed.

Lemma orDefault_idem {A} (d : option A) (x : A) :
  orDefault d (orDefault d x) = orDefault d x.
Proof. destruct d; reflexivity. Qed.

Lemma upsertedRow_again (userData : UpsertUser.t) (id : Id)
  (existing : option User.t) :
  upsertedRow userData id (Some (upsertedRow userData id existing))
  = upsertedRow userData id existing.
Proof.
  destruct existing as [u|]; unfold upsertedRow; cbn;
    rewrite ?orElse_idem, ?orDefault_idem; try reflexivity.
  destruct userData as [i e f l p t c s]; cbn.
  destruct e, f, l, p, t, c, s; reflexivity.
Qed.

(** X17. After [upsertUser] for a given id, [getUser] of that id returns
    the very row [upsertUser] returned; and running the same [upsertUser]
    again returns the same row and leaves the store as the first run left
    it. *)
Theorem upsert_user_then_get (userData : UpsertUser.t) (id : Id) (db : Db) :
  UpsertUser.id userData = Some id ->
  User.id (fst (upsertUser userData db)) = id
  /\ fst (getUser id (snd (upsertUser userData db)))
     = Some (fst (upsertUser userData db))
  /\ upsertUser userData (snd (upsertUser userData db))
     = upsertUser userData db.
Proof.
  intros Hid. rewrite (upsertUser_given userData id db Hid). cbv zeta.
  set (existing := find (fun u => String.eqb (User.id u) id) (users db)).
  set (user := upsertedRow userData id existing).
  assert (Huid : User.id user = id) by apply upsertedRow_id.
  cbn [fst snd].
  assert (Hget : find (fun u => String.eqb (User.id u) id)
                   (upsertedUsers id existing user (users db))
                 = Some user).
  { unfold upsertedUsers. destruct existing as [u0|] eqn:Hex.
    - exact (find_replaced id user (users db) u0 Huid Hex).
    - apply find_last; [exact Hex|]. now rewrite Huid, String.eqb_refl. }
  split; [exact Huid|]. split; [exact Hget|].
  rewrite (upsertUser_given userData id _ Hid). cbv zeta.
  cbn [users set_users]. rewrite Hget.
  assert (Huser : upsertedRow userData id (Some user) = user)
    by apply upsertedRow_again.
  rewrite Huser. f_equal.
  assert (Hrows : upsertedUsers id (Some user) user
                    (upsertedUsers id existing user (users db))
                  = upsertedUsers id existing user (users db)).
  { unfold upsertedUsers at 1. apply map_unchanged.
    intros a Ha. destruct (String.eqb (User.id a) id) eqn:Hq; [|reflexivity].
    unfold upsertedUsers in Ha. destruct existing as [u0|] eqn:Hex.
    - apply in_map_iff in Ha. destruct Ha as (b & Hb & _).
      destruct (String.eqb (User.id b) id) eqn:Hqb; [now symmetry|].
      subst b. congruence.
    - apply in_app_or in Ha. destruct Ha as [Ha|[Ha|[]]]; [|exact Ha].
      pose proof (find_none _ _ Hex a Ha) as Hno. cbn in Hno. congruence. }
  rewrite Hrows. destruct db; reflexivity.
Qed.

Lemma upsert_user_then_get_witness :
  let claims := UpsertUser.mk (Some "u9") (Some "u9@example.org")
                  (Some "Ada") None None None None None in
  fst (getUser "u9" (snd (upsertUser claims (exampleDb 1 1))))
  = Some (fst (upsertUser claims (exampleDb 1 1)))
  /\ upsertUser claims (snd (upsertUser claims (exampleDb 1 1)))
     = upsertUser claims (exampleDb 1 1).
Proof.
  cbv zeta.
  destruct (upsert_user_then_get
              (UpsertUser.mk (Some "u9") (Some "u9@example.org")
                 (Some "Ada") None None None None None)
              "u9" (exampleDb 1 1) eq_refl) as (_ & Hget & Hagain).
  split; assumption.
Defined.

Lemma NoDup_map_same {A B} (f : A -> B) (l : list A) (a b : A) :
  NoDup (map f l) -> In a l -> In b l -> f a = f b -> a = b.
Proof.
  induction l as [|x l IH]; cbn [map]; intros Hnd Ha Hb Hf; [contradiction|].
  inversion Hnd as [|y ys Hnin Hnd']; subst.
  destruct Ha as [->|Ha], Hb as [->|Hb]; try reflexivity.
  - exfalso. apply Hnin. rewrite Hf. now apply in_map.
  - exfalso. apply Hnin. rewrite <- Hf. now apply in_map.
  - now apply IH.
Qed.

(** X18. On a users table with distinct ids, [upsertUser] with no
    [totalCarbonSaved] key leaves every stored user's carbon counter as it
    was, whether it updates a known user or inserts a new one. *)
Theorem upsert_user_keeps_counters (userData : UpsertUser.t) (id : Id)
  (db : Db) :
  UpsertUser.id userData = Some id ->
  UpsertUser.totalCarbonSaved userData = None ->
  NoDup (map User.id (users db)) ->
  exists front extra,
    users (snd (upsertUser userData db)) = (front ++ extra)%list
    /\ Forall2 sameCounter (users db) front.
Proof.
  intros Hid Hkey Hnd. rewrite (upsertUser_given userData id db Hid).
  cbv zeta. cbn [snd users set_users].
  destruct (find (fun u => String.eqb (User.id u) id) (users db))
    as [u0|] eqn:Hex; unfold upsertedUsers.
  - eexists. exists []. rewrite app_nil_r. split; [reflexivity|].
    apply find_some in Hex. destruct Hex as [Hin0 Hid0].
    apply String.eqb_eq in Hid0.
    assert (Hall : forall a, In a (users db) ->
              sameCounter a
                (if String.eqb (User.id a) id
                 then upsertedRow userData id (Some u0) else a)).
    { intros a Ha. destruct (String.eqb (User.id a) id) eqn:Hq.
      - apply String.eqb_eq in Hq.
        assert (a = u0)
          by (apply (NoDup_map_same User.id (users db)); congruence).
        subst a. unfold sameCounter, upsertedRow. cbn. rewrite Hkey.
        split; [now symmetry|reflexivity].
      - split; reflexivity. }
    clear Hin0 Hnd. induction (users db) as [|a l IH]; cbn [map];
      constructor.
    + apply Hall. now left.
    + apply IH. intros b Hb. apply Hall. now right.
  - exists (users db), [upsertedRow userData id None].
    split; [reflexivity|].
    clear. induction (users db) as [|a l IH]; constructor; [|exact IH].
    split; reflexivity.
Qed.

Lemma upsert_user_keeps_counters_witness :
  let claims := UpsertUser.mk (Some "u1") (Some "u1@example.org") None None
                  None None None None in
  NoDup (map User.id (users (exampleDb 1 1)))
  /\ map User.totalCarbonSaved
       (users (snd (upsertUser claims (exampleDb 1 1))))
     = map User.totalCarbonSaved (users (exampleDb 1 1))
  /\ exists front extra,
       users (snd (upsertUser claims (exampleDb 1 1))) = (front ++ extra)%list
       /\ Forall2 sameCounter (users (exampleDb 1 1)) front.
Proof.
  cbv zeta.
  assert (Hnd : NoDup (map User.id (users (exampleDb 1 1)))).
  { cbn. repeat constructor; cbn; intuition discriminate. }
  split; [exact Hnd|]. split; [reflexivity|].
  exact (upsert_user_keeps_counters
           (UpsertUser.mk (Some "u1") (Some "u1@example.org") None None
              None None None None)
           "u1" (exampleDb 1 1) eq_refl eq_refl Hnd).
Defined.

(** ** Order status *)

Lemma set_orders_same (db : Db) : set_orders db (orders db) = db.
Proof. destruct db; reflexivity. Qed.

(** X19. [updateOrderStatus] checks no transition: whatever status an
    order has, it gets the requested one, and the call returns that order;
    every other column of it, every other order and every order item stay
    as they were.  For an id that no order has it returns nothing and
    changes nothing. *)
Theorem update_order_status_any_transition (db : Db) (id : Id)
  (s : OrderStatus) :
  ((forall o, In o (orders db) -> Order.id o <> id) ->
   updateOrderStatus id s db = (None, db))
  /\ ((exists o, In o (orders db) /\ Order.id o = id) ->
      exists o',
        fst (updateOrderStatus id s db) = Some o'
        /\ In o' (orders (snd (updateOrderStatus id s db)))
        /\ Order.id o' = id /\ Order.status o' = s)
  /\ Forall2
       (fun o o' =>
          if String.eqb (Order.id o) id
          then o' = Order.with_status o s
          else o' = o)
       (orders db) (orders (snd (updateOrderStatus id s db)))
  /\ orderItems (snd (updateOrderStatus id s db)) = orderItems db.
Proof.
  assert (Hrun : updateOrderStatus id s db
                 = let rows :=
                     map (fun o => if String.eqb (Order.id o) id
                                   then Order.with_status o s else o)
                         (orders db) in
                   (find (fun o => String.eqb (Order.id o) id) rows,
                    set_orders db rows)) by reflexivity.
  rewrite Hrun. cbv zeta. split; [|split; [|split; [|reflexivity]]].
  - intros Hnone.
    assert (Hoff : forall o, In o (orders db) ->
                     String.eqb (Order.id o) id = false).
    { intros o Ho. destruct (String.eqb (Order.id o) id) eqn:Heq;
        [|reflexivity].
      apply String.eqb_eq in Heq. exfalso. exact (Hnone o Ho Heq). }
    rewrite map_unchanged.
    + rewrite (find_absent _ _ Hoff), set_orders_same. reflexivity.
    + intros o Ho. now rewrite (Hoff o Ho).
  - intros (o & Ho & Hid).
    assert (Hin : In (Order.with_status o s)
                    (map (fun o => if String.eqb (Order.id o) id
                                   then Order.with_status o s else o)
                         (orders db))).
    { apply in_map_iff. exists o. split; [|assumption].
      rewrite <- Hid, String.eqb_refl. reflexivity. }
    destruct (find_present (fun o => String.eqb (Order.id o) id) _ _ Hin)
      as (o' & Hfind); [cbn; now apply String.eqb_eq|].
    exists o'. cbn [fst snd orders set_orders]. rewrite Hfind.
    apply find_some in Hfind. destruct Hfind as [Hin' Hid'].
    apply String.eqb_eq in Hid'.
    split; [reflexivity|]. split; [assumption|]. split; [assumption|].
    apply in_map_iff in Hin'. destruct Hin' as (o0 & Ho0 & _).
    destruct (String.eqb (Order.id o0) id) eqn:Heq; subst o'.
    + reflexivity.
    + apply String.eqb_neq in Heq. contradiction.
  - cbn [snd orders set_orders]. clear Hrun.
    induction (orders db) as [|o l IH]; cbn [map]; constructor; [|exact IH].
    destruct (String.eqb (Order.id o) id); reflexivity.
Qed.

(** A delivered order is set back to pending. *)
Lemma update_order_status_any_transition_witness :
  let o := Order.mk "o1" "u1" 25 delivered "addr" None (Some 8) in
  let db := set_orders (exampleDb 1 1) [o] in
  fst (updateOrderStatus "o1" pending db) = Some (Order.with_status o pending)
  /\ updateOrderStatus "o9" shipped db = (None, db).
Proof.
  cbv zeta. split; [reflexivity|].
  apply (proj1 (update_order_status_any_transition _ "o9" shipped)).
  cbn. intros o [<-|[]]. discriminate.
Defined.

(** ** Payment intents for a positive amount *)





(** * Further properties of the client and of the login server *)

(** ** The product card *)

Lemma ratings_sum_bounds (lo hi : Z) (reviews : list Review.t) :
  (forall r, In r reviews -> (lo <= Review.rating r <= hi)%Z) ->
  inject_Z lo * inject_Z (Z.of_nat (List.length reviews))
  <= sumQ (map (fun r => inject_Z (Review.rating r)) reviews)
  /\ sumQ (map (fun r => inject_Z (Review.rating r)) reviews)
     <= inject_Z hi * inject_Z (Z.of_nat (List.length reviews)).
Proof.
  induction reviews as [|r l IH]; intros Hall.
  - cbn. split; rewrite Qmult_0_r; apply Qle_refl.
  - destruct IH as [IHlo IHhi]; [intros x Hx; apply Hall; now right|].
    destruct (Hall r (or_introl eq_refl)) as [Hlo Hhi].
    cbn [List.length map sumQ fold_right].
    rewrite Nat2Z.inj_succ, <- Z.add_1_r, inject_Z_plus.
    fold (sumQ (map (fun r => inject_Z (Review.rating r)) l)).
    split.
    + setoid_replace (inject_Z lo * (inject_Z (Z.of_nat (List.length l))
                                     + inject_Z 1))
        with (inject_Z lo
              + inject_Z lo * inject_Z (Z.of_nat (List.length l))) by ring.
      apply Qplus_le_compat; [|exact IHlo].
      rewrite <- Zle_Qle. exact Hlo.
    + setoid_replace (inject_Z hi * (inject_Z (Z.of_nat (List.length l))
                                     + inject_Z 1))
        with (inject_Z hi
              + inject_Z hi * inject_Z (Z.of_nat (List.length l))) by ring.
      apply Qplus_le_compat; [|exact IHhi].
      rewrite <- Zle_Qle. exact Hhi.
Qed.

(** X21. The average rating shown on a product card is 0 for a product
    without reviews; for a product with reviews it lies between any two
    bounds that all its ratings respect, so between 1 and 5 when the
    ratings are. *)
Theorem average_rating_within_ratings (product : ProductWithSeller.t)
  (lo hi : Z) :
  (forall r, In r (ProductWithSeller.reviews product) ->
             (lo <= Review.rating r <= hi)%Z) ->
  (ProductWithSeller.reviews product = [] ->
   ProductCard.averageRating product == 0)
  /\ (ProductWithSeller.reviews product <> [] ->
      inject_Z lo <= ProductCard.averageRating product
      /\ ProductCard.averageRating product <= inject_Z hi).
Proof.
  intros Hall. unfold ProductCard.averageRating. cbv zeta. split.
  - intros ->. reflexivity.
  - intros Hne.
    destruct (ProductWithSeller.reviews product) as [|r l] eqn:Hl;
      [congruence|]. rewrite <- Hl in *.
    assert (Hlen : (0 < List.length (ProductWithSeller.reviews product))%nat)
      by (rewrite Hl; cbn; lia).
    replace (Nat.ltb 0 (List.length (ProductWithSeller.reviews product)))
      with true by (symmetry; now apply Nat.ltb_lt).
    rewrite (fold_plus_sumQ (fun r => inject_Z (Review.rating r)) _ 0).
    rewrite Qplus_0_l.
    destruct (ratings_sum_bounds lo hi _ Hall) as [Hlo Hhi].
    assert (Hn : 0 < inject_Z
                       (Z.of_nat
                          (List.length (ProductWithSeller.reviews product)))).
    { change 0 with (inject_Z 0). rewrite <- Zlt_Qlt. lia. }
    split.
    + now apply Qle_shift_div_l.
    + now apply Qle_shift_div_r.
Qed.

Lemma average_rating_within_ratings_witness :
  let product := ProductWithSeller.mk (someProduct "P1" 10 1 true)
                   (someUser "s1" 0)
                   [Review.mk "r1" "P1" "u2" 5%Z None;
                    Review.mk "r2" "P1" "u1" 4%Z None] in
  1 <= ProductCard.averageRating product
  /\ ProductCard.averageRating product <= 5.
Proof.
  cbv zeta.
  apply (average_rating_within_ratings
           (ProductWithSeller.mk (someProduct "P1" 10 1 true)
              (someUser "s1" 0)
              [Review.mk "r1" "P1" "u2" 5%Z None;
               Review.mk "r2" "P1" "u1" 4%Z None]) 1%Z 5%Z).
  - cbn. intros r [<-|[<-|[]]]; cbn; lia.
  - discriminate.
Defined.

(** X22. For a product with a positive original price, the discount shown
    on the card is a whole percentage between 0 and 100 when the price is
    positive and not above the original price, and is not positive (so no
    badge is shown) when the price is not below the original price; a
    product without an original price has discount 0. *)
Theorem discount_percentage_bounds (product : ProductWithSeller.t)
  (originalPrice : Q) :
  Product.originalPrice (ProductWithSeller.row product) = Some originalPrice ->
  0 < originalPrice ->
  (0 < Product.price (ProductWithSeller.row product) ->
   Product.price (ProductWithSeller.row product) <= originalPrice ->
   (0 <= ProductCard.discountPercentage product <= 100)%Z)
  /\ (originalPrice <= Product.price (ProductWithSeller.row product) ->
      (ProductCard.discountPercentage product <= 0)%Z).
Proof.
  intros Ho Hpos. unfold ProductCard.discountPercentage, Math_round, parseFloat.
  rewrite Ho. set (price := Product.price (ProductWithSeller.row product)).
  split.
  - intros Hp Hle.
    assert (Hr0 : 0 <= price / originalPrice).
    { apply Qle_shift_div_l; [assumption|]. rewrite Qmult_0_l.
      now apply Qlt_le_weak. }
    assert (Hr1 : price / originalPrice <= 1).
    { apply Qle_shift_div_r; [assumption|]. now rewrite Qmult_1_l. }
    split.
    + change 0%Z with (Qfloor 0). apply Qfloor_resp_le.
      apply Qle_trans with ((1 - 1) * 100 + (1 # 2)); [discriminate|].
      apply Qplus_le_l. apply Qmult_le_compat_r; [|discriminate].
      apply Qplus_le_r. now apply Qopp_le_compat.
    + change 100%Z with (Qfloor ((1 - 0) * 100 + (1 # 2))).
      apply Qfloor_resp_le.
      apply Qplus_le_l. apply Qmult_le_compat_r; [|discriminate].
      apply Qplus_le_r. now apply Qopp_le_compat.
  - intros Hge.
    assert (Hr1 : 1 <= price / originalPrice).
    { apply Qle_shift_div_l; [assumption|]. now rewrite Qmult_1_l. }
    change 0%Z with (Qfloor ((1 - 1) * 100 + (1 # 2))).
    apply Qfloor_resp_le.
    apply Qplus_le_l. apply Qmult_le_compat_r; [|discriminate].
    apply Qplus_le_r. now apply Qopp_le_compat.
Qed.

(** Listed at 30, now 20: a third off, shown as 33. *)
Lemma discount_percentage_bounds_witness :
  let product :=
    ProductWithSeller.mk
      (Product.mk "P7" "s1" "item" "used item" 20 (Some 30) other good 8%Z
         [] 1 None "A" (Some false) (Some true) (Some false) 0%Z)
      (someUser "s1" 0) [] in
  ProductCard.discountPercentage product = 33%Z
  /\ (0 <= ProductCard.discountPercentage product <= 100)%Z.
Proof.
  cbv zeta. split; [reflexivity|].
  apply (discount_percentage_bounds
           (ProductWithSeller.mk
              (Product.mk "P7" "s1" "item" "used item" 20 (Some 30) other
                 good 8%Z [] 1 None "A" (Some false) (Some true) (Some false)
                 0%Z)
              (someUser "s1" 0) []) 30 eq_refl); reflexivity || discriminate.
Defined.

(** ** The sell page's image list *)

Lemma includes_false (xs : list string) (x : string) :
  includes xs x = false -> ~ In x xs.
Proof.
  intros Hf Hin. apply includes_In in Hin. congruence.
Qed.

Lemma addImageUrl_keeps (trimmed : string) (urls : list string) :
  NoDup urls /\ ~ In "" urls ->
  NoDup (Sell.addImageUrl trimmed urls)
  /\ ~ In "" (Sell.addImageUrl trimmed urls).
Proof.
  intros [Hnd Hne]. unfold Sell.addImageUrl.
  destruct (String.eqb trimmed "") eqn:He; cbn [negb andb]; [now split|].
  destruct (includes urls trimmed) eqn:Hi; cbn [negb]; [now split|].
  apply includes_false in Hi. apply String.eqb_neq in He. split.
  - apply NoDup_app; [assumption|repeat constructor; intros []|].
    intros x Hx [<-|[]]. contradiction.
  - intros Hin. apply in_app_or in Hin. destruct Hin as [Hin|[Hin|[]]];
      [contradiction|congruence].
Qed.

Lemma removeImageUrl_keeps (url : string) (urls : list string) :
  NoDup urls /\ ~ In "" urls ->
  NoDup (Sell.removeImageUrl url urls)
  /\ ~ In "" (Sell.removeImageUrl url urls).
Proof.
  intros [Hnd Hne]. unfold Sell.removeImageUrl. split.
  - now apply NoDup_filter.
  - intros Hin. apply filter_In in Hin. tauto.
Qed.

(** X23. Starting from no image and whatever the seller adds and
    removes, the list of image URLs never holds the same URL twice nor an
    empty one; removing a URL leaves no occurrence of it, and removing a
    URL just added to a list that did not have it gives that list back;
    the form is submitted with at least one image or not at all. *)
Theorem image_urls_stay_distinct (actions : list ImageAction)
  (url : string) (urls : list string) :
  (NoDup (fold_left applyImageAction actions [])
   /\ ~ In "" (fold_left applyImageAction actions []))
  /\ ~ In url (Sell.removeImageUrl url urls)
  /\ (url <> "" -> ~ In url urls ->
      Sell.removeImageUrl url (Sell.addImageUrl url urls) = urls)
  /\ (forall sent, Sell.onSubmit urls = Some sent -> sent = urls /\ urls <> []).
Proof.
  split; [|split; [|split]].
  - assert (Hinv : forall l, NoDup l /\ ~ In "" l ->
              NoDup (fold_left applyImageAction actions l)
              /\ ~ In "" (fold_left applyImageAction actions l)).
    { induction actions as [|a actions IH]; intros l Hl; cbn [fold_left];
        [exact Hl|].
      apply IH. destruct a; cbn [applyImageAction].
      - now apply addImageUrl_keeps.
      - now apply removeImageUrl_keeps. }
    apply Hinv. split; [constructor|intros []].
  - unfold Sell.removeImageUrl. intros Hin. apply filter_In in Hin.
    destruct Hin as [_ Hneq]. rewrite String.eqb_refl in Hneq. discriminate.
  - intros Hne Hnin. unfold Sell.addImageUrl.
    replace (String.eqb url "") with false
      by (symmetry; now apply String.eqb_neq).
    replace (includes urls url) with false.
    + cbn [negb andb]. unfold Sell.removeImageUrl.
      rewrite filter_app. cbn [filter]. rewrite String.eqb_refl.
      cbn [negb]. rewrite app_nil_r. apply filter_all.
      intros u Hu. apply negb_true_iff. apply String.eqb_neq. congruence.
    + symmetry. destruct (includes urls url) eqn:Hi; [|reflexivity].
      apply includes_In in Hi. contradiction.
  - unfold Sell.onSubmit. intros sent.
    destruct urls as [|u l]; cbn; [discriminate|].
    intros Hs. inversion Hs. split; [reflexivity|discriminate].
Qed.

Lemma image_urls_stay_distinct_witness :
  fold_left applyImageAction
    [AddImage "a.png"; AddImage "b.png"; AddImage "a.png"; AddImage "";
     RemoveImage "b.png"] []
  = ["a.png"]
  /\ Sell.removeImageUrl "c.png" (Sell.addImageUrl "c.png" ["a.png"])
     = ["a.png"].
Proof.
  split; [reflexivity|].
  apply (proj1 (proj2 (proj2
           (image_urls_stay_distinct [] "c.png" ["a.png"])))).
  - discriminate.
  - cbn. intros [H|[]]. discriminate.
Defined.

(** ** The standalone login server *)





(** * Reading an order back *)









(** * The carbon counter and the orders agree *)






(** * Editing a product *)

Lemma set_products_same (db : Db) : set_products db (products db) = db.
Proof. destruct db; reflexivity. Qed.

Lemma applyUpdates_none (p : Product.t) : applyUpdates p ProductUpdates.none = p.
Proof. destruct p; reflexivity. Qed.

(** X27. [updateProduct] never changes a product's id or view counter
    and touches no product with another id; with no key set it changes
    nothing at all; for an id that no product has it returns nothing and
    leaves the store as it is; otherwise it returns a stored product of
    that id. *)
Theorem update_product_keeps_id_and_views (db : Db) (id : Id)
  (updates : ProductUpdates.t) :
  Forall2
    (fun p p' =>
       Product.id p' = Product.id p /\ Product.views p' = Product.views p
       /\ (Product.id p <> id -> p' = p))
    (products db) (products (snd (updateProduct id updates db)))
  /\ snd (updateProduct id ProductUpdates.none db) = db
  /\ ((forall p, In p (products db) -> Product.id p <> id) ->
      updateProduct id updates db = (None, db))
  /\ ((exists p, In p (products db) /\ Product.id p = id) ->
      exists p',
        fst (updateProduct id updates db) = Some p'
        /\ In p' (products (snd (updateProduct id updates db)))
        /\ Product.id p' = id).
Proof.
  assert (Hrun : forall u, updateProduct id u db
                 = let rows :=
                     map (fun p => if String.eqb (Product.id p) id
                                   then applyUpdates p u else p)
                         (products db) in
                   (find (fun p => String.eqb (Product.id p) id) rows,
                    set_products db rows)) by reflexivity.
  rewrite !Hrun. cbv zeta. cbn [fst snd products set_products].
  clear Hrun. split; [|split; [|split]].
  - induction (products db) as [|p l IH]; cbn [map]; constructor; [|exact IH].
    destruct (String.eqb (Product.id p) id) eqn:Heq.
    + apply String.eqb_eq in Heq. repeat split; try reflexivity.
      intros Hne. contradiction.
    + repeat split; reflexivity.
  - rewrite map_unchanged; [apply set_products_same|].
    intros p _. destruct (String.eqb (Product.id p) id); [|reflexivity].
    apply applyUpdates_none.
  - intros Hnone.
    assert (Hoff : forall p, In p (products db) ->
                     String.eqb (Product.id p) id = false).
    { intros p Hp. apply String.eqb_neq. now apply Hnone. }
    rewrite map_unchanged.
    + rewrite (find_absent _ _ Hoff), set_products_same. reflexivity.
    + intros p Hp. now rewrite (Hoff p Hp).
  - intros (p & Hp & Hid).
    assert (Hin : In (applyUpdates p updates)
                    (map (fun p => if String.eqb (Product.id p) id
                                   then applyUpdates p updates else p)
                         (products db))).
    { apply in_map_iff. exists p. split; [|assumption].
      rewrite <- Hid, String.eqb_refl. reflexivity. }
    destruct (find_present (fun p => String.eqb (Product.id p) id) _ _ Hin)
      as (p' & Hfind); [cbn; now apply String.eqb_eq|].
    exists p'. rewrite Hfind. apply find_some in Hfind.
    destruct Hfind as [Hin' Hid']. apply String.eqb_eq in Hid'.
    repeat split; assumption.
Qed.

(** The seller of P1 changes its price and takes it off the market: the
    views and the other products stay. *)
Lemma update_product_keeps_id_and_views_witness :
  let edit := ProductUpdates.mk None None None (Some 8) None None None None
                None None None None None (Some (Some false)) None in
  map (fun p => (Product.id p, Product.price p, Product.available p))
    (products (snd (updateProduct "P1" edit (exampleDb 1 1))))
  = [("P1", 8, Some false); ("P2", 5, Some true); ("P3", 7, Some false)]
  /\ updateProduct "P9" edit (exampleDb 1 1) = (None, exampleDb 1 1).
Proof.
  cbv zeta. split; [reflexivity|].
  apply (proj1 (proj2 (proj2
           (update_product_keeps_id_and_views (exampleDb 1 1) "P9" _)))).
  cbn. intros p [<-|[<-|[<-|[]]]]; discriminate.
Defined.
